(** * Display filters of [tracker/templatetags/custom_filters.py]

    A shallow embedding of the template filters and of the part of Python
    and of [django.utils.timezone] they run on, followed by the properties
    the specification states about them.

    Conventions of the embedding.
    - A Python [str] is a Rocq [string]; each character stands for the code
      point of the same number, so the texts covered are those over the
      code points 0..255. [lower], [strip] and the numeric parsers follow
      Python on that range.
    - A Python [int] is a [Z]; a [float] is a binary64 value of
      [SpecFloat], with the standard library's correctly rounded
      operations; a [Decimal] is a sign, a coefficient and an exponent,
      operated in the default context (28 digits, ROUND_HALF_EVEN).
    - A call either returns a value or raises: [result] is the error
      monad, [try_except] is the [try]/[except] statement.
    - The ambient clock and time zone are an explicit [clock] argument.
      [django.utils.timezone] is the one of Django 4 and later: the zones
      are [zoneinfo] zones, [make_aware] attaches the current zone to a
      naive datetime, and time-zone support is on, so that
      [timezone.now()] is aware, in UTC.

    The filters embedded are the ones the properties are about:
    [timesince_days], [replace], [to_css_class], [order_last_update],
    [margin_percentage], [format_minutes], [elapsed_minutes],
    [extract_services], [actual_time_minutes] and [format_qty], and then
    [div], [mul], [dict_get], [customer_status] and [absolute_value].
    [safe_filesize] and [has_type] read a file store and a database,
    which the embedding does not have. *)

From Stdlib Require Import ZArith NArith List String Ascii Bool Lia.
From Stdlib Require Import SpecFloat.
Import ListNotations.

Local Open Scope string_scope.
Local Open Scope Z_scope.

(** ** Exceptions and the error monad *)

Inductive exn : Type :=
| ValueError
| TypeError
| AttributeError
| ZeroDivisionError
| OverflowError
| InvalidOperation
| DecimalOverflow.

Definition exn_eqb (a b : exn) : bool :=
  match a, b with
  | ValueError, ValueError
  | TypeError, TypeError
  | AttributeError, AttributeError
  | ZeroDivisionError, ZeroDivisionError
  | OverflowError, OverflowError
  | InvalidOperation, InvalidOperation
  | DecimalOverflow, DecimalOverflow => true
  | _, _ => false
  end.

Inductive result (A : Type) : Type :=
| Return (a : A)
| Raise (e : exn).

Arguments Return {A} a.
Arguments Raise {A} e.

Definition bind {A B : Type} (m : result A) (k : A -> result B) : result B :=
  match m with
  | Return a => k a
  | Raise e => Raise e
  end.

Declare Scope py_scope.
Delimit Scope py_scope with py.
Notation "x <- m ;; k" := (bind m (fun x => k))
  (at level 61, m at next level, right associativity) : py_scope.
Local Open Scope py_scope.

(** An [except] clause: the classes it names, and its body.  None of the
    exception classes of [exn] is a subclass of another one, so a clause
    that names classes catches exactly those; [except Exception] catches
    every one of them. *)
Inductive except_classes : Type :=
| Classes (l : list exn)
| AnyException.

Definition catches (c : except_classes) (e : exn) : bool :=
  match c with
  | Classes l => existsb (exn_eqb e) l
  | AnyException => true
  end.

Fixpoint handle {A : Type} (clauses : list (except_classes * result A))
  (e : exn) : result A :=
  match clauses with
  | [] => Raise e
  | (c, body) :: rest => if catches c e then body else handle rest e
  end.

Definition try_except {A : Type} (body : result A)
  (clauses : list (except_classes * result A)) : result A :=
  match body with
  | Return a => Return a
  | Raise e => handle clauses e
  end.

(** ** Strings *)

Definition code (c : ascii) : N := N_of_ascii c.

Definition chr (n : N) : ascii := ascii_of_N n.

(** [str.isspace] on one character. *)
Definition is_space (c : ascii) : bool :=
  let n := code c in
  (((9 <=? n) && (n <=? 13)) || ((28 <=? n) && (n <=? 32))
   || (n =? 133) || (n =? 160))%N.

(** [str.lower] on one character. *)
Definition lower_char (c : ascii) : ascii :=
  let n := code c in
  if (((65 <=? n) && (n <=? 90))
      || ((192 <=? n) && (n <=? 222) && negb (n =? 215)))%N
  then chr (n + 32) else c.

Fixpoint lower (s : string) : string :=
  match s with
  | EmptyString => EmptyString
  | String c s' => String (lower_char c) (lower s')
  end.

Fixpoint lstrip_by (p : ascii -> bool) (s : string) : string :=
  match s with
  | EmptyString => EmptyString
  | String c s' => if p c then lstrip_by p s' else s
  end.

Fixpoint rstrip_by (p : ascii -> bool) (s : string) : string :=
  match s with
  | EmptyString => EmptyString
  | String c s' =>
      match rstrip_by p s' with
      | EmptyString => if p c then EmptyString else String c EmptyString
      | r => String c r
      end
  end.

(** [s.strip()] *)
Definition strip (s : string) : string := rstrip_by is_space (lstrip_by is_space s).

(** [s.rstrip(chars)] *)
Definition rstrip_chars (chars : string) (s : string) : string :=
  rstrip_by (fun c => existsb (Ascii.eqb c) (list_ascii_of_string chars)) s.

(** [s.startswith(p)] *)
Definition startswith (s p : string) : bool := String.prefix p s.

(** [sub in s] for two strings. *)
Fixpoint contains (sub s : string) : bool :=
  String.prefix sub s
  || match s with
     | EmptyString => false
     | String _ s' => contains sub s'
     end.

(** [s.replace(old, new)] for a non-empty [old]: the occurrences are taken
    from the left and do not overlap; [skip] counts the characters of the
    occurrence just replaced that are still to be passed over. *)
Fixpoint replace_from (old new : string) (skip : nat) (s : string) : string :=
  match s with
  | EmptyString => EmptyString
  | String c s' =>
      match skip with
      | S k => replace_from old new k s'
      | O =>
          if String.prefix old s
          then new ++ replace_from old new (Nat.pred (String.length old)) s'
          else String c (replace_from old new O s')
      end
  end.

Fixpoint intersperse (new : string) (s : string) : string :=
  match s with
  | EmptyString => EmptyString
  | String c s' => String c (new ++ intersperse new s')
  end.

(** [s.replace(old, new)]; an empty [old] matches before every character
    and at the end. *)
Definition str_replace (old new s : string) : string :=
  match old with
  | EmptyString => new ++ intersperse new s
  | _ => replace_from old new O s
  end.

(** [s.split(sep)] for a non-empty [sep]: the list is never empty, its head
    is the piece being read. *)
Fixpoint split_from (sep : string) (skip : nat) (s : string) : list string :=
  match s with
  | EmptyString => [EmptyString]
  | String c s' =>
      match skip with
      | S k => split_from sep k s'
      | O =>
          if String.prefix sep s
          then EmptyString :: split_from sep (Nat.pred (String.length sep)) s'
          else
            match split_from sep O s' with
            | h :: t => String c h :: t
            | [] => [String c EmptyString]
            end
      end
  end.

Definition split (sep s : string) : list string := split_from sep O s.

(** What is left of [s] after its first [n] characters. *)
Fixpoint drop (n : nat) (s : string) : string :=
  match n, s with
  | O, _ => s
  | S k, EmptyString => EmptyString
  | S k, String _ s' => drop k s'
  end.

(** [s.split(sep, 1)] for a non-empty [sep]: the text before the first
    occurrence and the text after it, or [s] alone. *)
Fixpoint split_once (sep : string) (s : string) : list string :=
  match s with
  | EmptyString => [EmptyString]
  | String c s' =>
      if String.prefix sep s
      then [EmptyString; drop (String.length sep) s]
      else
        match split_once sep s' with
        | h :: t => String c h :: t
        | [] => [String c EmptyString]
        end
  end.

(** [sep.join(l)] *)
Fixpoint join (sep : string) (l : list string) : string :=
  match l with
  | [] => EmptyString
  | [x] => x
  | x :: rest => x ++ sep ++ join sep rest
  end.

(** ** Decimal numerals *)

Definition is_digit (c : ascii) : bool :=
  let n := code c in ((48 <=? n) && (n <=? 57))%N.

Definition digit_char (d : Z) : ascii := chr (Z.to_N (48 + d)).

(** The decimal numeral of a non-negative integer, most significant digit
    first; [fuel] bounds the number of digits. *)
Fixpoint digits_of (fuel : nat) (n : Z) (acc : string) : string :=
  match fuel with
  | O => acc
  | S f =>
      let acc' := String (digit_char (n mod 10)) acc in
      if n <? 10 then acc' else digits_of f (n / 10) acc'
  end.

Definition str_of_nonneg (n : Z) : string :=
  digits_of (S (Z.to_nat (Z.log2 n))) n EmptyString.

(** [str(n)] for an [int]. *)
Definition str_of_Z (n : Z) : string :=
  if n <? 0 then String "-" (str_of_nonneg (- n)) else str_of_nonneg n.

(** The value of a string of digits. *)
Fixpoint value_of_digits (acc : Z) (s : string) : Z :=
  match s with
  | EmptyString => acc
  | String c s' => value_of_digits (10 * acc + (Z.of_N (code c) - 48)) s'
  end.

Fixpoint all_digits (s : string) : bool :=
  match s with
  | EmptyString => true
  | String c s' => is_digit c && all_digits s'
  end.

(** The longest prefix of digits, and the rest. *)
Fixpoint span_digits (s : string) : string * string :=
  match s with
  | EmptyString => (EmptyString, EmptyString)
  | String c s' =>
      if is_digit c
      then let (d, r) := span_digits s' in (String c d, r)
      else (EmptyString, s)
  end.

(** An optional sign: [true] for a minus. *)
Definition take_sign (s : string) : bool * string :=
  match s with
  | String "-" s' => (true, s')
  | String "+" s' => (false, s')
  | _ => (false, s)
  end.

(** The exponent part of a numeral: nothing, or [e], an optional sign and
    at least one digit, up to the end of the text. *)
Definition parse_exponent (s : string) : option Z :=
  match s with
  | EmptyString => Some 0
  | String c s' =>
      if Ascii.eqb (lower_char c) "e"
      then
        let (neg, ds) := take_sign s' in
        match ds with
        | EmptyString => None
        | _ => if all_digits ds
               then Some (if neg then - value_of_digits 0 ds else value_of_digits 0 ds)
               else None
        end
      else None
  end.

(** An unsigned numeral [digits [. digits] [e [sign] digits]] with a digit
    in its mantissa, read to the end of the text: the coefficient and the
    power of ten. *)
Definition parse_numeral (s : string) : option (Z * Z) :=
  let (ip, r1) := span_digits s in
  let (fp, r2) :=
    match r1 with
    | String "." r => span_digits r
    | _ => (EmptyString, r1)
    end in
  match ip ++ fp with
  | EmptyString => None
  | ds =>
      match parse_exponent r2 with
      | Some e => Some (value_of_digits 0 ds, e - Z.of_nat (String.length fp))
      | None => None
      end
  end.

(** ** Floats (binary64) *)

Definition prec : Z := 53.
Definition emax : Z := 1024.

Definition float : Type := spec_float.

Definition fadd : float -> float -> float := SFadd prec emax.
Definition fsub : float -> float -> float := SFsub prec emax.
Definition fmul : float -> float -> float := SFmul prec emax.
Definition fdiv : float -> float -> float := SFdiv prec emax.

(** The float nearest to an integer (ties to even); an infinity beyond the
    range. *)
Definition float_of_Z (n : Z) : float := binary_normalize prec emax n 0 false.

(** The float nearest to [(-1)^neg * n / d], for [n >= 0] and [d > 0]. *)
Definition float_of_ratio (neg : bool) (n d : Z) : float :=
  match n, d with
  | Zpos pn, Zpos pd => fdiv (S754_finite neg pn 0) (S754_finite false pd 0)
  | _, _ => S754_zero neg
  end.

(** The float nearest to [(-1)^neg * c * 10^e], for [c >= 0]. *)
Definition float_of_decimal (neg : bool) (c e : Z) : float :=
  if 0 <=? e
  then (if c =? 0 then S754_zero neg
        else binary_normalize prec emax ((if neg then - c else c) * 10 ^ e) 0 false)
  else float_of_ratio neg c (10 ^ (- e)).

Definition float_ltb (x y : float) : bool := SFltb x y.
Definition float_leb (x y : float) : bool := SFleb x y.

Definition float_is_zero (x : float) : bool :=
  match x with S754_zero _ => true | _ => false end.

(** Structural identity of two floats (same class, sign, mantissa and
    exponent). *)
Definition float_same (x y : float) : bool :=
  match x, y with
  | S754_zero a, S754_zero b => Bool.eqb a b
  | S754_infinity a, S754_infinity b => Bool.eqb a b
  | S754_nan, S754_nan => true
  | S754_finite a m e, S754_finite b m' e' => Bool.eqb a b && Pos.eqb m m' && (e =? e')
  | _, _ => false
  end.

(** [int(x)] for a float: truncation towards zero. *)
Definition int_of_float (x : float) : result Z :=
  match x with
  | S754_zero _ => Return 0
  | S754_nan => Raise ValueError
  | S754_infinity _ => Raise OverflowError
  | S754_finite s m e =>
      let a := if 0 <=? e then Zpos m * 2 ^ e else Zpos m / 2 ^ (- e) in
      Return (if s then - a else a)
  end.

(** The characters [float()] strips around a numeral. *)
Definition is_float_space (c : ascii) : bool :=
  let n := code c in
  (((9 <=? n) && (n <=? 13)) || (n =? 32) || (n =? 133) || (n =? 160))%N.

(** Underscores of a numeral given to [float()]: each must stand between
    two digits, and is dropped. [prev] is the character before. *)
Fixpoint drop_underscores (prev : ascii) (s : string) : option string :=
  match s with
  | EmptyString => if Ascii.eqb prev "_" then None else Some EmptyString
  | String c s' =>
      if Ascii.eqb c "_"
      then (if is_digit prev then drop_underscores c s' else None)
      else if Ascii.eqb prev "_" && negb (is_digit c) then None
      else match drop_underscores c s' with
           | Some r => Some (String c r)
           | None => None
           end
  end.

(** [float(s)] for a [str]. *)
Definition float_of_string (s : string) : result float :=
  let t := rstrip_by is_float_space (lstrip_by is_float_space s) in
  match drop_underscores "000" t with
  | None => Raise ValueError
  | Some u =>
      let (neg, body) := take_sign u in
      let low := lower body in
      if String.eqb low "inf" || String.eqb low "infinity"
      then Return (S754_infinity neg)
      else if String.eqb low "nan" then Return S754_nan
      else match parse_numeral body with
           | Some (c, e) => Return (float_of_decimal neg c e)
           | None => Raise ValueError
           end
  end.

(** *** [repr] of a float: the shortest numeral that reads back as it *)

(** A positive finite float as a fraction [num / den]. *)
Definition fraction_of (m : positive) (e : Z) : Z * Z :=
  if 0 <=? e then (Zpos m * 2 ^ e, 1) else (Zpos m, 2 ^ (- e)).

Fixpoint first_scale (fuel : nat) (num den j : Z) : Z :=
  match fuel with
  | O => j
  | S f => if den <=? num * 10 ^ j then j else first_scale f num den (j + 1)
  end.

(** The [k] with [10^k <= num/den < 10^(k+1)]. *)
Definition decimal_exponent (num den : Z) : Z :=
  if den <=? num
  then Z.of_nat (String.length (str_of_nonneg (num / den))) - 1
  else - first_scale 400 num den 1.

(** [num/den * 10^s] as a fraction. *)
Definition scaled (num den s : Z) : Z * Z :=
  if 0 <=? s then (num * 10 ^ s, den) else (num, den * 10 ^ (- s)).

(** The numeral of [p] digits for the positive float [x = num/den]: of the
    two [p]-digit numerals around [x], one that reads back as [x], the
    nearer one when both do. The result [(c, s)] stands for [c * 10^(-s)]. *)
Definition shortest_at (x : float) (num den k p : Z) : option (Z * Z) :=
  let s := p - 1 - k in
  let (n', d') := scaled num den s in
  let lo := n' / d' in
  let r := n' mod d' in
  let hi := lo + 1 in
  let reads_back c := float_same (float_of_decimal false c (- s)) x in
  match reads_back lo, reads_back hi with
  | true, true =>
      Some (match 2 * r ?= d' with
            | Lt => lo
            | Gt => hi
            | Eq => if Z.even lo then lo else hi
            end, s)
  | true, false => Some (lo, s)
  | false, true => Some (hi, s)
  | false, false => None
  end.

Fixpoint shortest_digits (fuel : nat) (x : float) (num den k p : Z) : Z * Z :=
  match fuel with
  | O => (let (n', d') := scaled num den (p - 1 - k) in n' / d', p - 1 - k)
  | S f =>
      match shortest_at x num den k p with
      | Some r => r
      | None => shortest_digits f x num den k (p + 1)
      end
  end.

Fixpoint zeros (n : nat) : string :=
  match n with
  | O => EmptyString
  | S k => String "0" (zeros k)
  end.

Definition take (n : nat) (s : string) : string := String.substring 0 n s.

(** The exponent of a float in [repr]: a sign and at least two digits. *)
Definition exponent_text (e : Z) : string :=
  let a := str_of_nonneg (Z.abs e) in
  (if e <? 0 then "-" else "+") ++ (if Z.abs e <? 10 then "0" ++ a else a).

(** The digits [ds] with the decimal point after [decpt] of them, in the
    layout of [repr]. *)
Definition layout_repr (ds : string) (decpt : Z) : string :=
  let n := Z.of_nat (String.length ds) in
  if (decpt <=? -4) || (16 <? decpt)
  then take 1 ds ++ (if 1 <? n then "." ++ drop 1 ds else EmptyString)
       ++ "e" ++ exponent_text (decpt - 1)
  else if decpt <=? 0 then "0." ++ zeros (Z.to_nat (- decpt)) ++ ds
  else if n <=? decpt then ds ++ zeros (Z.to_nat (decpt - n)) ++ ".0"
  else take (Z.to_nat decpt) ds ++ "." ++ drop (Z.to_nat decpt) ds.

(** [repr(x)], which is also [str(x)], for a float. *)
Definition float_repr (x : float) : string :=
  match x with
  | S754_nan => "nan"
  | S754_infinity s => if s then "-inf" else "inf"
  | S754_zero s => if s then "-0.0" else "0.0"
  | S754_finite s m e =>
      let (num, den) := fraction_of m e in
      let k := decimal_exponent num den in
      let (c, sc) := shortest_digits 17 (S754_finite false m e) num den k 1 in
      let all := str_of_nonneg c in
      let ds := rstrip_chars "0" all in
      (if s then "-" else EmptyString)
      ++ layout_repr ds (Z.of_nat (String.length all) - sc)
  end.

(** *** [round(x, 2)]: the float nearest to the exact value of [x] rounded
    to two decimals, ties to even. *)
Definition round_half_even (n d : Z) : Z :=
  let q := n / d in
  match 2 * (n mod d) ?= d with
  | Lt => q
  | Gt => q + 1
  | Eq => if Z.even q then q else q + 1
  end.

Definition float_round2 (x : float) : float :=
  match x with
  | S754_finite s m e =>
      let (num, den) := fraction_of m e in
      float_of_ratio s (round_half_even (num * 100) den) 100
  | _ => x
  end.

(** *** Floor division of floats, [x // y], after CPython's
    [float_floor_div] *)

(** A finite non-zero float as an integer multiple of [2^e]. *)
Definition signed_mantissa (s : bool) (m : positive) : Z :=
  if s then Zneg m else Zpos m.

(** C's [fmod(x, y)] for finite [x] and finite non-zero [y]: exact, with
    the sign of [x]. *)
Definition float_fmod (x y : float) : float :=
  match x, y with
  | S754_finite sx mx ex, S754_finite sy my ey =>
      let e := Z.min ex ey in
      let a := Zpos mx * 2 ^ (ex - e) in
      let b := Zpos my * 2 ^ (ey - e) in
      binary_normalize prec emax (if sx then - (a mod b) else a mod b) e sx
  | S754_zero _, S754_finite _ _ _ => x
  | S754_finite _ _ _, S754_infinity _ => x
  | S754_zero _, S754_infinity _ => x
  | _, _ => S754_nan
  end.

(** C's [floor(x)]. *)
Definition float_floor (x : float) : float :=
  match x with
  | S754_finite s m e =>
      if 0 <=? e then x
      else binary_normalize prec emax (signed_mantissa s m / 2 ^ (- e)) 0 s
  | _ => x
  end.

Definition float_is_neg (x : float) : bool := float_ltb x (S754_zero false).

(** The sign bit of a float, as [copysign] reads it. *)
Definition sign_bit (x : float) : bool :=
  match x with
  | S754_zero s | S754_infinity s | S754_finite s _ _ => s
  | S754_nan => false
  end.

Definition float_one : float := float_of_Z 1.
Definition float_half : float := float_of_ratio false 1 2.

(** [x // y] for two floats. *)
Definition float_floordiv (x y : float) : result float :=
  if float_is_zero y then Raise ZeroDivisionError
  else
    let md := float_fmod x y in
    let dv := fdiv (fsub x md) y in
    let dv :=
      if negb (float_is_zero md)
         && negb (Bool.eqb (float_is_neg y) (float_is_neg md))
      then fsub dv float_one else dv in
    if float_is_zero dv
    then Return (S754_zero (sign_bit (fdiv x y)))
    else
      let fl := float_floor dv in
      Return (if float_ltb float_half (fsub dv fl) then fadd fl float_one else fl).

(** ** [decimal.Decimal], in the default context *)

Inductive decimal : Type :=
| DFinite (neg : bool) (coeff : Z) (exp : Z)
| DInfinity (neg : bool)
| DNaN (neg : bool) (signaling : bool) (payload : string).

Definition dec_prec : Z := 28.
Definition dec_Emax : Z := 999999.
Definition dec_Emin : Z := -999999.
Definition dec_Etiny : Z := dec_Emin - dec_prec + 1.
Definition dec_Etop : Z := dec_Emax - dec_prec + 1.

(** The bounds of an exact conversion from a string. *)
Definition dec_MAX_EMAX : Z := 999999999999999999.
Definition dec_MIN_ETINY : Z := -1999999999999999997.

Definition ndigits (c : Z) : Z := Z.of_nat (String.length (str_of_nonneg c)).

(** [d.adjusted()]: the exponent of the most significant digit. *)
Definition adjusted (c e : Z) : Z := e + ndigits c - 1.

Fixpoint remove_char (x : ascii) (s : string) : string :=
  match s with
  | EmptyString => EmptyString
  | String c s' => if Ascii.eqb c x then remove_char x s' else String c (remove_char x s')
  end.

Definition lstrip_zeros (s : string) : string :=
  lstrip_by (fun c => Ascii.eqb c "0") s.

(** [Decimal(s)] for a [str]: the text is stripped, its underscores are
    dropped, and it must be a numeral, an infinity or a NaN. *)
Definition decimal_of_string (s : string) : result decimal :=
  let t := remove_char "_" (strip s) in
  let (neg, body) := take_sign t in
  let low := lower body in
  if String.eqb low "inf" || String.eqb low "infinity" then Return (DInfinity neg)
  else if String.prefix "nan" low && all_digits (drop 3 low)
  then Return (DNaN neg false (lstrip_zeros (drop 3 low)))
  else if String.prefix "snan" low && all_digits (drop 4 low)
  then Return (DNaN neg true (lstrip_zeros (drop 4 low)))
  else
    match parse_numeral body with
    | Some (c, e) =>
        if (dec_MIN_ETINY <=? e) && (adjusted c e <=? dec_MAX_EMAX)
        then Return (DFinite neg c e)
        else Raise InvalidOperation
    | None => Raise InvalidOperation
    end.

(** [str(d)] *)
Definition decimal_str (d : decimal) : string :=
  match d with
  | DInfinity neg => (if neg then "-" else EmptyString) ++ "Infinity"
  | DNaN neg sig p => (if neg then "-" else EmptyString) ++ (if sig then "sNaN" else "NaN") ++ p
  | DFinite neg c e =>
      let ds := str_of_nonneg c in
      let len := Z.of_nat (String.length ds) in
      let leftdigits := e + len in
      let dotplace := if (e <=? 0) && (-6 <? leftdigits) then leftdigits else 1 in
      let intpart :=
        if dotplace <=? 0 then "0"
        else if len <=? dotplace then ds ++ zeros (Z.to_nat (dotplace - len))
        else take (Z.to_nat dotplace) ds in
      let fracpart :=
        if dotplace <=? 0 then "." ++ zeros (Z.to_nat (- dotplace)) ++ ds
        else if len <=? dotplace then EmptyString
        else "." ++ drop (Z.to_nat dotplace) ds in
      let exp :=
        if leftdigits =? dotplace then EmptyString
        else "E" ++ (if leftdigits - dotplace <? 0 then "-" else "+")
                 ++ str_of_nonneg (Z.abs (leftdigits - dotplace)) in
      (if neg then "-" else EmptyString) ++ intpart ++ fracpart ++ exp
  end.

(** [d._rescale(exp, ROUND_HALF_EVEN)] on the coefficient of a finite
    number: the coefficient at exponent [target]. *)
Definition dec_rescale (c e target : Z) : Z :=
  if c =? 0 then 0
  else if target <=? e then c * 10 ^ (e - target)
  else round_half_even c (10 ^ (target - e)).

(** [d._fix(context)] for a finite number: rounding to the precision and
    the exponent range of the context. *)
Definition dec_fix (neg : bool) (c e : Z) : result decimal :=
  if c =? 0 then Return (DFinite neg 0 (Z.min (Z.max e dec_Etiny) dec_Emax))
  else
    let exp_min := ndigits c + e - dec_prec in
    if dec_Etop <? exp_min then Raise DecimalOverflow
    else
      let exp_min := Z.max exp_min dec_Etiny in
      if e <? exp_min
      then
        let c1 := round_half_even c (10 ^ (exp_min - e)) in
        let (c2, e2) :=
          if dec_prec <? ndigits c1 then (c1 / 10, exp_min + 1) else (c1, exp_min) in
        if dec_Etop <? e2 then Raise DecimalOverflow else Return (DFinite neg c2 e2)
      else Return (DFinite neg c e).

(** [d._fix_nan(context)]: a payload longer than the precision keeps its
    last digits. *)
Definition dec_fix_nan (neg : bool) (p : string) : decimal :=
  let len := String.length p in
  if (Z.to_nat dec_prec <? len)%nat
  then DNaN neg false (lstrip_zeros (drop (len - Z.to_nat dec_prec) p))
  else DNaN neg false p.

(** [x % y] *)
Definition dec_mod (x y : decimal) : result decimal :=
  match x, y with
  | DNaN _ true _, _ => Raise InvalidOperation
  | _, DNaN _ true _ => Raise InvalidOperation
  | DNaN neg false p, _ => Return (dec_fix_nan neg p)
  | _, DNaN neg false p => Return (dec_fix_nan neg p)
  | DInfinity _, _ => Raise InvalidOperation
  | DFinite sx cx ex, DInfinity _ => dec_fix sx cx ex
  | DFinite sx cx ex, DFinite sy cy ey =>
      if cy =? 0 then Raise InvalidOperation
      else
        let ideal := Z.min ex ey in
        let expdiff := adjusted cx ex - adjusted cy ey in
        if (cx =? 0) || (expdiff <=? -2)
        then dec_fix sx (dec_rescale cx ex ideal) ideal
        else if expdiff <=? dec_prec
        then
          let a := cx * 10 ^ (ex - ideal) in
          let b := cy * 10 ^ (ey - ideal) in
          if a / b <? 10 ^ dec_prec
          then dec_fix sx (a mod b) ideal
          else Raise InvalidOperation
        else Raise InvalidOperation
  end.

(** [x.quantize(q)] for a finite [q]. *)
Definition dec_quantize (x : decimal) (qe : Z) : result decimal :=
  match x with
  | DNaN _ true _ => Raise InvalidOperation
  | DNaN neg false p => Return (dec_fix_nan neg p)
  | DInfinity _ => Raise InvalidOperation
  | DFinite s c e =>
      if negb ((dec_Etiny <=? qe) && (qe <=? dec_Emax)) then Raise InvalidOperation
      else if c =? 0 then dec_fix s 0 qe
      else if dec_Emax <? adjusted c e then Raise InvalidOperation
      else if dec_prec <? adjusted c e - qe + 1 then Raise InvalidOperation
      else
        let c1 := dec_rescale c e qe in
        if dec_Emax <? adjusted c1 qe then Raise InvalidOperation
        else if dec_prec <? ndigits c1 then Raise InvalidOperation
        else dec_fix s c1 qe
  end.

(** [d != 0] *)
Definition dec_nonzero (d : decimal) : bool :=
  match d with
  | DFinite _ c _ => negb (c =? 0)
  | _ => true
  end.

(** [int(d)]: truncation towards zero. *)
Definition int_of_decimal (d : decimal) : result Z :=
  match d with
  | DNaN _ _ _ => Raise ValueError
  | DInfinity _ => Raise OverflowError
  | DFinite neg c e =>
      let a := if 0 <=? e then c * 10 ^ e else c / 10 ^ (- e) in
      Return (if neg then - a else a)
  end.

(** [float(d)] *)
Definition float_of_decimal_value (d : decimal) : result float :=
  match d with
  | DNaN _ true _ => Raise ValueError
  | DNaN neg false _ => float_of_string (if neg then "-nan" else "nan")
  | _ => float_of_string (decimal_str d)
  end.

(** ** [datetime.datetime] and [django.utils.timezone]

    A datetime is its wall-clock reading, in microseconds since
    0001-01-01 00:00:00, and its [tzinfo].  The [tzinfo] objects are
    [datetime.timezone.utc] and the [zoneinfo.ZoneInfo] zones; a zone is
    identified by its key (one object per key) and comes with the offset
    from UTC, in microseconds, that it reports for the datetime carrying
    it. *)

Inductive tzinfo : Type :=
| UTC
| Zone (key : string) (offset : Z).

Record datetime : Type := { dt_wall : Z; dt_tz : option tzinfo }.

(** A [timedelta], in microseconds. *)
Definition timedelta : Type := Z.

Definition us_per_second : Z := 1000000.
Definition us_per_day : Z := 86400 * us_per_second.

(** One past the largest wall-clock reading, 9999-12-31 23:59:59.999999. *)
Definition max_wall : Z := 3652059 * us_per_day.

Definition wall_in_range (w : Z) : bool := (0 <=? w) && (w <? max_wall).

(** [tz is tz'] *)
Definition same_tzinfo (a b : tzinfo) : bool :=
  match a, b with
  | UTC, UTC => true
  | Zone k _, Zone k' _ => String.eqb k k'
  | _, _ => false
  end.

Definition tz_offset (t : tzinfo) : Z :=
  match t with
  | UTC => 0
  | Zone _ off => off
  end.

(** [d.utcoffset()] *)
Definition utcoffset (d : datetime) : option Z := option_map tz_offset (dt_tz d).

(** [a - b] for two datetimes: the wall-clock difference when both carry
    the same [tzinfo] object or none, the difference of the instants when
    both are aware. *)
Definition datetime_sub (a b : datetime) : result timedelta :=
  match dt_tz a, dt_tz b with
  | None, None => Return (dt_wall a - dt_wall b)
  | Some ta, Some tb =>
      if same_tzinfo ta tb then Return (dt_wall a - dt_wall b)
      else Return ((dt_wall a - tz_offset ta) - (dt_wall b - tz_offset tb))
  | _, _ => Raise TypeError
  end.

(** [delta.days] *)
Definition delta_days (d : timedelta) : Z := d / us_per_day.

(** [delta.total_seconds()]: the true division of two integers. *)
Definition total_seconds (d : timedelta) : float :=
  float_of_ratio (d <? 0) (Z.abs d) us_per_second.

(** The ambient state the filters read: the current instant, as the UTC
    wall clock shows it; the key of the current time zone; the offset
    this zone gives to a local wall-clock reading, and to a UTC one.
    Time-zone support is on ([USE_TZ = True]), so [timezone.now()] is
    aware, in UTC. *)
Record clock : Type := {
  now_utc : Z;
  zone_key : string;
  zone_offset_local : Z -> Z;
  zone_offset_utc : Z -> Z
}.

(** [timezone.now()] *)
Definition tz_now (clk : clock) : datetime :=
  {| dt_wall := now_utc clk; dt_tz := Some UTC |}.

(** [value.replace(tzinfo=timezone.get_current_timezone())] *)
Definition attach_current_zone (clk : clock) (d : datetime) : datetime :=
  {| dt_wall := dt_wall d;
     dt_tz := Some (Zone (zone_key clk) (zone_offset_local clk (dt_wall d))) |}.

(** [value.astimezone(timezone.get_current_timezone())] for an aware
    [value]. *)
Definition astimezone_current (clk : clock) (d : datetime) (t : tzinfo)
  : result datetime :=
  if same_tzinfo t (Zone (zone_key clk) 0) then Return d
  else
    let u := dt_wall d - tz_offset t in
    if wall_in_range u
    then
      let w := u + zone_offset_utc clk u in
      if wall_in_range w
      then Return {| dt_wall := w; dt_tz := Some (Zone (zone_key clk) (w - u)) |}
      else Raise OverflowError
    else Raise OverflowError.

(** *** Calendar fields, for [str] and [repr] *)

Definition days_before_month (leap : bool) (month : Z) : Z :=
  let base :=
    match month with
    | 1 => 0 | 2 => 31 | 3 => 59 | 4 => 90 | 5 => 120 | 6 => 151 | 7 => 181
    | 8 => 212 | 9 => 243 | 10 => 273 | 11 => 304 | _ => 334
    end in
  if (2 <? month) && leap then base + 1 else base.

Definition days_in_month (leap : bool) (month : Z) : Z :=
  match month with
  | 2 => if leap then 29 else 28
  | 4 | 6 | 9 | 11 => 30
  | _ => 31
  end.

(** Year, month and day of the day number [n], counted from 0 at
    0001-01-01. *)
Definition ord2ymd (n : Z) : Z * Z * Z :=
  let n400 := n / 146097 in
  let n := n mod 146097 in
  let n100 := n / 36524 in
  let n := n mod 36524 in
  let n4 := n / 1461 in
  let n := n mod 1461 in
  let n1 := n / 365 in
  let n := n mod 365 in
  let year := n400 * 400 + 1 + n100 * 100 + n4 * 4 + n1 in
  if (n1 =? 4) || (n100 =? 4) then (year - 1, 12, 31)
  else
    let leap := (n1 =? 3) && (negb (n4 =? 24) || (n100 =? 3)) in
    let month := (n + 50) / 32 in
    let preceding := days_before_month leap month in
    if n <? preceding
    then (year, month - 1,
          n - (preceding - days_in_month leap (month - 1)) + 1)
    else (year, month, n - preceding + 1).

(** A number on at least [w] digits. *)
Definition pad (w : nat) (n : Z) : string :=
  let s := str_of_nonneg n in
  zeros (w - String.length s) ++ s.

Definition offset_text (off : Z) : string :=
  let a := Z.abs off in
  let hh := a / (3600 * us_per_second) in
  let mm := (a / (60 * us_per_second)) mod 60 in
  let ss := (a / us_per_second) mod 60 in
  let us := a mod us_per_second in
  (if off <? 0 then "-" else "+") ++ pad 2 hh ++ ":" ++ pad 2 mm
  ++ (if (ss =? 0) && (us =? 0) then EmptyString
      else ":" ++ pad 2 ss ++ (if us =? 0 then EmptyString else "." ++ pad 6 us)).

(** [str(d)] *)
Definition datetime_str (d : datetime) : string :=
  let w := dt_wall d in
  let '(y, m, dd) := ord2ymd (w / us_per_day) in
  let t := w mod us_per_day in
  let us := t mod us_per_second in
  pad 4 y ++ "-" ++ pad 2 m ++ "-" ++ pad 2 dd ++ " "
  ++ pad 2 (t / (3600 * us_per_second)) ++ ":"
  ++ pad 2 ((t / (60 * us_per_second)) mod 60) ++ ":"
  ++ pad 2 ((t / us_per_second) mod 60)
  ++ (if us =? 0 then EmptyString else "." ++ pad 6 us)
  ++ match utcoffset d with
     | Some off => offset_text off
     | None => EmptyString
     end.

Definition hex_digit (n : N) : ascii :=
  if (n <? 10)%N then chr (48 + n) else chr (87 + n).

(** [repr(s)] for a [str]. *)
Definition is_printable (c : ascii) : bool :=
  let n := code c in
  (((32 <=? n) && (n <? 127)) || ((161 <=? n) && negb (n =? 173)))%N.

Definition backslash : ascii := chr 92.
Definition dquote : ascii := chr 34.
Definition squote : ascii := chr 39.

Definition char1 (c : ascii) : string := String c EmptyString.

Fixpoint escape (quote : ascii) (s : string) : string :=
  match s with
  | EmptyString => EmptyString
  | String c s' =>
      (if Ascii.eqb c quote || Ascii.eqb c backslash then String backslash (char1 c)
       else if Ascii.eqb c (chr 9) then String backslash "t"
       else if Ascii.eqb c (chr 10) then String backslash "n"
       else if Ascii.eqb c (chr 13) then String backslash "r"
       else if is_printable c then char1 c
       else String backslash
              (String "x" (String (hex_digit (code c / 16))
                             (char1 (hex_digit (code c mod 16))))))
      ++ escape quote s'
  end.

Definition str_repr (s : string) : string :=
  let quote : ascii :=
    if contains (char1 squote) s && negb (contains (char1 dquote) s)
    then dquote else squote in
  String quote (escape quote s ++ char1 quote).

Definition tzinfo_repr (t : tzinfo) : string :=
  match t with
  | UTC => "datetime.timezone.utc"
  | Zone key _ => "zoneinfo.ZoneInfo(key=" ++ str_repr key ++ ")"
  end.

(** [repr(d)] *)
Definition datetime_repr (d : datetime) : string :=
  let w := dt_wall d in
  let '(y, m, dd) := ord2ymd (w / us_per_day) in
  let t := w mod us_per_day in
  let ss := (t / us_per_second) mod 60 in
  let us := t mod us_per_second in
  "datetime.datetime(" ++ str_of_Z y ++ ", " ++ str_of_Z m ++ ", " ++ str_of_Z dd
  ++ ", " ++ str_of_Z (t / (3600 * us_per_second))
  ++ ", " ++ str_of_Z ((t / (60 * us_per_second)) mod 60)
  ++ (if (ss =? 0) && (us =? 0) then EmptyString
      else ", " ++ str_of_Z ss ++ (if us =? 0 then EmptyString else ", " ++ str_of_Z us))
  ++ match dt_tz d with
     | Some t => ", tzinfo=" ++ tzinfo_repr t
     | None => EmptyString
     end
  ++ ")".

(** ** Python values

    The values the templates hand to the filters: scalars, datetimes,
    lists, dictionaries with string keys, and record-like objects (model
    instances), given by their class name, the text of their [__str__]
    and their attributes. *)

#[warnings="-register-all"]
Inductive pyval : Type :=
| PNone
| PBool (b : bool)
| PInt (n : Z)
| PFloat (x : float)
| PStr (s : string)
| PDecimal (d : decimal)
| PDatetime (d : datetime)
| PList (items : list pyval)
| PDict (entries : list (string * pyval))
| PObj (class text : string) (attrs : list (string * pyval)).

(** Lookup in an association list, first entry first. *)
Fixpoint lookup {V : Type} (key : string) (m : list (string * V)) : option V :=
  match m with
  | [] => None
  | (k, v) :: rest => if String.eqb k key then Some v else lookup key rest
  end.

(** [d.get(key, default)] *)
Definition dict_get {V : Type} (m : list (string * V)) (key : string) (default : V) : V :=
  match lookup key m with
  | Some v => v
  | None => default
  end.

(** [bool(v)] *)
Definition truthy (v : pyval) : bool :=
  match v with
  | PNone => false
  | PBool b => b
  | PInt n => negb (n =? 0)
  | PFloat x => negb (float_is_zero x)
  | PStr s => negb (String.eqb s EmptyString)
  | PDecimal d => dec_nonzero d
  | PDatetime _ => true
  | PList l => match l with [] => false | _ => true end
  | PDict m => match m with [] => false | _ => true end
  | PObj _ _ _ => true
  end.

Definition is_none (v : pyval) : bool :=
  match v with PNone => true | _ => false end.

(** [repr(v)] *)
Fixpoint py_repr (v : pyval) : string :=
  match v with
  | PNone => "None"
  | PBool b => if b then "True" else "False"
  | PInt n => str_of_Z n
  | PFloat x => float_repr x
  | PStr s => str_repr s
  | PDecimal d => "Decimal('" ++ decimal_str d ++ "')"
  | PDatetime d => datetime_repr d
  | PList l => "[" ++ join ", " (map py_repr l) ++ "]"
  | PDict m =>
      "{" ++ join ", " (map (fun kv : string * pyval => let (k, x) := kv in
                                       str_repr k ++ ": " ++ py_repr x) m) ++ "}"
  | PObj class text _ => "<" ++ class ++ ": " ++ text ++ ">"
  end.

(** [str(v)] *)
Definition py_str (v : pyval) : string :=
  match v with
  | PStr s => s
  | PDecimal d => decimal_str d
  | PDatetime d => datetime_str d
  | PObj _ text _ => text
  | _ => py_repr v
  end.

(** [float(v)] *)
Definition py_float (v : pyval) : result float :=
  match v with
  | PBool b => Return (float_of_Z (if b then 1 else 0))
  | PInt n =>
      match float_of_Z n with
      | S754_infinity _ => Raise OverflowError
      | x => Return x
      end
  | PFloat x => Return x
  | PStr s => float_of_string s
  | PDecimal d => float_of_decimal_value d
  | PNone | PDatetime _ | PList _ | PDict _ | PObj _ _ _ => Raise TypeError
  end.

(** [hasattr(v, name)], for the names the filters ask for: [get], which
    dictionaries have, and the field names of the records. *)
Definition hasattr (v : pyval) (name : string) : bool :=
  match v with
  | PDict _ => String.eqb name "get"
  | PObj _ _ attrs => match lookup name attrs with Some _ => true | None => false end
  | _ => false
  end.

(** [getattr(v, name, default)] for a field name of a record. *)
Definition getattr_default (v : pyval) (name : string) (default : pyval) : pyval :=
  match v with
  | PObj _ _ attrs => dict_get attrs name default
  | _ => default
  end.

(** [v.name] for a field name of a record. *)
Definition getattr (v : pyval) (name : string) : result pyval :=
  match v with
  | PObj _ _ attrs =>
      match lookup name attrs with
      | Some x => Return x
      | None => Raise AttributeError
      end
  | _ => Raise AttributeError
  end.

(** [v.get(key, default)], for a [v] that has a [get]: the lookup of a
    dictionary; the [get] of a record is a field value, which cannot be
    called. *)
Definition call_get (v : pyval) (key : string) (default : pyval) : result pyval :=
  match v with
  | PDict m => Return (dict_get m key default)
  | PObj _ _ attrs =>
      match lookup "get" attrs with
      | Some _ => Raise TypeError
      | None => Raise AttributeError
      end
  | _ => Raise AttributeError
  end.

(** [a or b] *)
Definition py_or (a : pyval) (b : result pyval) : result pyval :=
  if truthy a then Return a else b.

(** [x in v] for a [str] [x]. *)
Definition py_in (x : string) (v : pyval) : result bool :=
  match v with
  | PStr s => Return (contains x s)
  | PList l =>
      Return (existsb (fun i => match i with PStr s => String.eqb s x | _ => false end) l)
  | PDict m => Return (match lookup x m with Some _ => true | None => false end)
  | _ => Raise TypeError
  end.

(** [v.split(sep, 1)] *)
Definition py_split_once (v : pyval) (sep : string) : result (list string) :=
  match v with
  | PStr s => Return (split_once sep s)
  | _ => Raise AttributeError
  end.

(** [s.replace(old, new)] for a [str] [s] and any [old]. *)
Definition py_replace (s : string) (old : pyval) (new : string) : result string :=
  match old with
  | PStr o => Return (str_replace o new s)
  | _ => Raise TypeError
  end.

(** [timezone.is_naive(v)], that is [v.utcoffset() is None]. *)
Definition is_naive (v : pyval) : result bool :=
  match v with
  | PDatetime d => Return (match utcoffset d with None => true | Some _ => false end)
  | _ => Raise AttributeError
  end.

(** [timezone.is_aware(v)] *)
Definition is_aware (v : pyval) : result bool :=
  match v with
  | PDatetime d => Return (match utcoffset d with None => false | Some _ => true end)
  | _ => Raise AttributeError
  end.

(** [timezone.make_aware(v)], in the current time zone. *)
Definition make_aware (clk : clock) (v : pyval) : result pyval :=
  match v with
  | PDatetime d =>
      match utcoffset d with
      | Some _ => Raise ValueError
      | None => Return (PDatetime (attach_current_zone clk d))
      end
  | _ => Raise AttributeError
  end.

(** [timezone.localtime(v)] *)
Definition localtime (clk : clock) (v : pyval) : result pyval :=
  match v with
  | PDatetime d =>
      match dt_tz d with
      | None => Raise ValueError
      | Some t => r <- astimezone_current clk d t ;; Return (PDatetime r)
      end
  | _ => Raise AttributeError
  end.

(** [a - b], for a datetime [a]. *)
Definition py_sub (a : datetime) (b : pyval) : result timedelta :=
  match b with
  | PDatetime d => datetime_sub a d
  | _ => Raise TypeError
  end.

(** A number that is an [int] or a [float]. *)
Inductive number : Type :=
| IsInt (n : Z)
| IsFloat (x : float).

Definition number_to_float (a : number) : float :=
  match a with
  | IsInt n => float_of_Z n
  | IsFloat x => x
  end.

(** [a <= 0] *)
Definition le_zero (a : number) : bool :=
  match a with
  | IsInt n => n <=? 0
  | IsFloat x => float_leb x (S754_zero false)
  end.

(** [max(0, x)]: [x] when [x > 0], the integer [0] otherwise. *)
Definition max_zero (x : float) : number :=
  if float_ltb (S754_zero false) x then IsFloat x else IsInt 0.

(** [int(a)] *)
Definition int_of_number (a : number) : result Z :=
  match a with
  | IsInt n => Return n
  | IsFloat x => int_of_float x
  end.

(** [x / y] for two floats. *)
Definition float_truediv (x y : float) : result float :=
  if float_is_zero y then Raise ZeroDivisionError else Return (fdiv x y).

(** ** The filters *)

Definition newline : string := char1 (chr 10).

(** [timesince_days(value)] *)
Definition timesince_days (clk : clock) (value : pyval) : result pyval :=
  if negb (truthy value) then Return (PInt 0)
  else
    try_except
      (let now := tz_now clk in
       naive <- is_naive value ;;
       value <- (if naive then make_aware clk value else Return value) ;;
       delta <- py_sub now value ;;
       Return (PInt (delta_days delta)))
      [(Classes [TypeError; ValueError], Return (PInt 0))].

(** [replace(value, arg)] *)
Definition replace (value arg : pyval) : result pyval :=
  if negb (truthy value) then Return value
  else
    try_except
      (has_colon <- py_in ":" arg ;;
       if has_colon
       then
         parts <- py_split_once arg ":" ;;
         match parts with
         | [old; new] => Return (PStr (str_replace old new (py_str value)))
         | _ => Raise ValueError
         end
       else
         r <- py_replace (py_str value) arg EmptyString ;;
         Return (PStr r))
      [(Classes [ValueError; AttributeError], Return value)].

Definition status_mapping : list (string * string) :=
  [ ("created", "pending");
    ("assigned", "in-progress");
    ("in_progress", "in-progress");
    ("inprogress", "in-progress");
    ("overdue", "overdue");
    ("completed", "completed");
    ("cancelled", "cancelled");
    ("pending", "pending");
    ("low", "low");
    ("medium", "medium");
    ("high", "high");
    ("urgent", "urgent") ].

(** [to_css_class(value)]; no step of it can raise. *)
Definition to_css_class (value : pyval) : pyval :=
  if negb (truthy value) then PStr EmptyString
  else
    let value := strip (lower (py_str value)) in
    PStr (dict_get status_mapping value (str_replace "_" "-" value)).

(** The loop of [order_last_update] over the attribute names. *)
Fixpoint first_timestamp (clk : clock) (order : pyval) (attrs : list string)
  : result pyval :=
  match attrs with
  | [] => Return (PDatetime (tz_now clk))
  | attr :: rest =>
      let val := getattr_default order attr PNone in
      if truthy val
      then
        naive <- is_naive val ;;
        if naive then make_aware clk val else Return val
      else first_timestamp clk order rest
  end.

Definition timestamp_fields : list string :=
  ["completed_at"; "cancelled_at"; "started_at"; "assigned_at"; "created_at"].

(** [order_last_update(order)].  Whatever raises does so after the local
    import of [timezone], so the handler finds the name among its locals
    and returns [timezone.now()]; the error it logs is not part of the
    result. *)
Definition order_last_update (clk : clock) (order : pyval) : result pyval :=
  try_except
    (if negb (truthy order) then Return PNone
     else first_timestamp clk order timestamp_fields)
    [(AnyException, Return (PDatetime (tz_now clk)))].

(** The two operands of [margin_percentage], as the three branches of the
    filter coerce them. *)
Definition margin_operands (price cost_price : pyval) : result (float * number) :=
  if is_none cost_price && hasattr price "get"
  then
    p <- call_get price "price" (PInt 0) ;;
    price_val <- py_float p ;;
    c <- call_get price "cost_price" (PInt 0) ;;
    cost_val <- py_float c ;;
    Return (price_val, IsFloat cost_val)
  else if is_none cost_price && hasattr price "price" && hasattr price "cost_price"
  then
    p <- getattr price "price" ;;
    price_val <- py_float p ;;
    c <- getattr price "cost_price" ;;
    cost_val <- py_float c ;;
    Return (price_val, IsFloat cost_val)
  else
    price_val <- py_float price ;;
    cost_val <- (if negb (is_none cost_price)
                 then x <- py_float cost_price ;; Return (IsFloat x)
                 else Return (IsInt 0)) ;;
    Return (price_val, cost_val).

(** [((price_val - cost_val) / price_val) * 100] *)
Definition margin_of (price_val : float) (cost_val : number) : result float :=
  q <- float_truediv (fsub price_val (number_to_float cost_val)) price_val ;;
  Return (fmul q (float_of_Z 100)).

(** [margin_percentage(price, cost_price=None)] *)
Definition margin_percentage (price cost_price : pyval) : result pyval :=
  try_except
    (ops <- margin_operands price cost_price ;;
     let (price_val, cost_val) := ops in
     if float_leb price_val (S754_zero false) || le_zero cost_val
     then Return (PInt 0)
     else
       margin <- margin_of price_val cost_val ;;
       Return (PFloat (float_round2 margin)))
    [(Classes [ValueError; TypeError; AttributeError], Return (PInt 0));
     (AnyException, Return (PStr EmptyString))].

(** The text of [hours] and [mins], as [format_minutes] lays it out. *)
Definition minutes_text (hours mins : Z) : string :=
  if negb (hours =? 0) && negb (mins =? 0)
  then str_of_Z hours ++ "h " ++ str_of_Z mins ++ "m"
  else if negb (hours =? 0) then str_of_Z hours ++ "h"
  else str_of_Z mins ++ "m".

(** [format_minutes(value)] *)
Definition format_minutes (value : pyval) : result pyval :=
  try_except
    (if is_none value then Return (PStr EmptyString)
     else
       x <- py_float value ;;
       total <- int_of_number (max_zero x) ;;
       let hours := total / 60 in
       let mins := total mod 60 in
       Return (PStr (minutes_text hours mins)))
    [(Classes [ValueError; TypeError], Return (PStr EmptyString))].

(** [int(max(0, delta.total_seconds() // 60))] *)
Definition whole_minutes (delta : timedelta) : result Z :=
  q <- float_floordiv (total_seconds delta) (float_of_Z 60) ;;
  int_of_number (max_zero q).

(** [elapsed_minutes(order)] *)
Definition elapsed_minutes (clk : clock) (order : pyval) : result pyval :=
  try_except
    (start <- py_or (getattr_default order "started_at" PNone)
                    (Return (getattr_default order "created_at" PNone)) ;;
     if negb (truthy start) then Return (PInt 0)
     else
       aware <- is_aware start ;;
       dt <- (if aware then localtime clk start else Return start) ;;
       delta <- py_sub (tz_now clk) dt ;;
       n <- whole_minutes delta ;;
       Return (PInt n))
    [(AnyException, Return (PInt 0))].

Definition prefixes : list string :=
  ["selected services:"; "services:"; "tire services:"; "add-ons:"].

(** The names on one line: [[s.strip() for s in services_text.split(',')
    if s.strip()]]. *)
Definition service_list (services_text : string) : list string :=
  map strip
    (filter (fun s => negb (String.eqb (strip s) EmptyString))
       (split "," services_text)).

(** The inner loop of [extract_services], over the prefixes, for one line;
    [services] is the list built so far. *)
Fixpoint scan_prefixes (line line_lower : string) (ps : list string)
  (services : list string) : list string :=
  match ps with
  | [] => services
  | prefix :: rest =>
      let services :=
        if startswith line_lower prefix
        then
          let services_text :=
            if contains ":" line
            then strip (nth 1 (split_once ":" line) EmptyString)
            else EmptyString in
          if negb (String.eqb services_text EmptyString)
          then (services ++ service_list services_text)%list
          else services
        else services in
      scan_prefixes line line_lower rest services
  end.

(** The outer loop, over the lines. *)
Fixpoint scan_lines (lines : list string) (services : list string) : list string :=
  match lines with
  | [] => services
  | line :: rest =>
      scan_lines rest (scan_prefixes line (lower (strip line)) prefixes services)
  end.

(** [extract_services(description)]; the filter has no handler, and a
    value that is not a [str] has no [split]. *)
Definition extract_services (description : pyval) : result pyval :=
  if negb (truthy description) then Return (PList [])
  else
    match description with
    | PStr text => Return (PList (map PStr (scan_lines (split newline text) [])))
    | _ => Raise AttributeError
    end.

(** [actual_time_minutes(order)] *)
Definition actual_time_minutes (clk : clock) (order : pyval) : result pyval :=
  try_except
    (if negb (truthy order) then Return (PInt 0)
     else
       started <- getattr order "started_at" ;;
       start_time <- py_or started (getattr order "created_at") ;;
       if negb (truthy start_time) then Return (PInt 0)
       else
         naive <- is_naive start_time ;;
         start_time <- (if naive then make_aware clk start_time
                        else Return start_time) ;;
         completed <- getattr order "completed_at" ;;
         end_time <-
           (if truthy completed
            then
              naive <- is_naive completed ;;
              if naive then make_aware clk completed else Return completed
            else Return (PDatetime (tz_now clk))) ;;
         delta <-
           match end_time with
           | PDatetime e => py_sub e start_time
           | _ => Raise TypeError
           end ;;
         total_minutes <- whole_minutes delta ;;
         Return (PInt total_minutes))
    [(AnyException, Return (PInt 0))].

(** [Decimal(value)] if [value] is a [str], [Decimal(str(value))]
    otherwise. *)
Definition to_decimal (value : pyval) : result decimal :=
  match value with
  | PStr s => decimal_of_string s
  | _ => decimal_of_string (py_str value)
  end.

(** [str(num.quantize(Decimal('0.01')) if num % 1 != 0 else int(num))] *)
Definition quantity_text (num : decimal) : result string :=
  r <- dec_mod num (DFinite false 1 0) ;;
  if dec_nonzero r
  then q <- dec_quantize num (-2) ;; Return (decimal_str q)
  else n <- int_of_decimal num ;; Return (str_of_Z n).

(** [format_qty(value)] *)
Definition format_qty (value : pyval) : result pyval :=
  try_except
    (if is_none value
        || match value with PStr s => String.eqb s EmptyString | _ => false end
     then Return (PStr "0")
     else
       num <- to_decimal value ;;
       result <- quantity_text num ;;
       Return (PStr (if contains "." result
                     then rstrip_chars "." (rstrip_chars "0" result)
                     else result)))
    [(Classes [ValueError; TypeError; ZeroDivisionError],
      Return (PStr (if negb (is_none value) then py_str value else "0")))].

(** ** The other filters *)

(** [div(value, arg)] *)
Definition div (value arg : pyval) : result pyval :=
  try_except
    (if is_none value || is_none arg then Return (PInt 0)
     else
       x <- py_float value ;;
       y <- py_float arg ;;
       q <- float_truediv x y ;;
       Return (PFloat q))
    [(Classes [ValueError; ZeroDivisionError; TypeError], Return (PInt 0))].

(** [mul(value, arg)] *)
Definition mul (value arg : pyval) : result pyval :=
  try_except
    (if is_none value || is_none arg then Return (PInt 0)
     else
       x <- py_float value ;;
       y <- py_float arg ;;
       Return (PFloat (fmul x y)))
    [(Classes [ValueError; TypeError], Return (PInt 0))].

(** [abs(x)] for a float. *)
Definition float_abs : float -> float := SFabs.

(** [absolute_value(value)], the filter registered as [abs]. *)
Definition absolute_value (value : pyval) : result pyval :=
  try_except
    (x <- py_float value ;; Return (PFloat (float_abs x)))
    [(Classes [ValueError; TypeError], Return value);
     (AnyException, Return (PStr EmptyString))].

(** [v.get(key)] for any key, for a [v] that has a [get]: the keys of the
    dictionaries are strings, so a key of another type is not found, and
    a list or a dictionary, which cannot be hashed, is refused. *)
Definition call_get_key (v key : pyval) : result pyval :=
  match v, key with
  | PDict m, PStr k => Return (dict_get m k PNone)
  | PDict _, (PList _ | PDict _) => Raise TypeError
  | PDict _, _ => Return PNone
  | _, _ => call_get v EmptyString PNone
  end.

Module Filter.

(** [dict_get(d, key)], the filter. *)
Definition dict_get (d key : pyval) : result pyval :=
  try_except
    (if truthy d && hasattr d "get" then call_get_key d key else Return PNone)
    [(AnyException, Return PNone)].

End Filter.

(** [d.date()], as a day number counted from 0001-01-01. *)
Definition date_of (d : datetime) : Z := dt_wall d / us_per_day.

(** [timezone.localdate(value)]; a [value] of [None] stands for
    [timezone.now()]. *)
Definition localdate (clk : clock) (value : pyval) : result Z :=
  local <- localtime clk (if is_none value then PDatetime (tz_now clk) else value) ;;
  match local with
  | PDatetime d => Return (date_of d)
  | _ => Raise AttributeError
  end.

(** [d <= 1] for a [Decimal]; an ordering that involves a NaN signals
    [InvalidOperation]. *)
Definition decimal_le_one (d : decimal) : result bool :=
  match d with
  | DNaN _ _ _ => Raise InvalidOperation
  | DInfinity neg => Return neg
  | DFinite neg c e =>
      Return ((c =? 0) || neg
              || (if 0 <=? e then c * 10 ^ e <=? 1 else c <=? 10 ^ (- e)))
  end.

(** [v <= 1] *)
Definition py_le_one (v : pyval) : result bool :=
  match v with
  | PBool _ => Return true
  | PInt n => Return (n <=? 1)
  | PFloat x => Return (float_leb x (float_of_Z 1))
  | PDecimal d => decimal_le_one d
  | PNone | PStr _ | PDatetime _ | PList _ | PDict _ | PObj _ _ _ => Raise TypeError
  end.

(** [customer_status(customer)]; [timezone] has a [localdate], so the
    registration date goes through it. *)
Definition customer_status (clk : clock) (customer : pyval) : result pyval :=
  try_except
    (if negb (truthy customer) then Return (PStr EmptyString)
     else
       today <- localdate clk PNone ;;
       registered_today <-
         (if truthy (getattr_default customer "registration_date" PNone)
          then
            registration_date <- getattr customer "registration_date" ;;
            reg_date <- localdate clk registration_date ;;
            Return (reg_date =? today)
          else Return false) ;;
       if registered_today then Return (PStr "new")
       else
         visits <- py_or (getattr_default customer "total_visits" (PInt 0))
                         (Return (PInt 0)) ;;
         few <- py_le_one visits ;;
         Return (PStr (if few then "new" else "returning")))
    [(AnyException, Return (PStr EmptyString))].

(** ** The specification's wording, as definitions

    The definitions below follow the sentences of the specification, not
    the code; the theorems compare them with the filters. *)

(** The first value of a list that is not null. *)
Fixpoint first_non_null (vals : list pyval) : pyval :=
  match vals with
  | [] => PNone
  | PNone :: rest => first_non_null rest
  | v :: _ => v
  end.

(** A field that holds a timestamp or nothing. *)
Definition timestamp_or_null (v : pyval) : Prop :=
  match v with
  | PNone | PDatetime _ => True
  | _ => False
  end.

(** A timestamp coerced to time-zone aware: a naive one is read in the
    current time zone, an aware one is unchanged. *)
Definition coerced_aware (clk : clock) (d : datetime) : datetime :=
  match dt_tz d with
  | None => attach_current_zone clk d
  | Some _ => d
  end.

(** The instant a timestamp denotes, as a UTC wall-clock reading. *)
Definition instant (clk : clock) (d : datetime) : Z :=
  match utcoffset (coerced_aware clk d) with
  | Some off => dt_wall d - off
  | None => dt_wall d
  end.

(** The fixed canonical name of a known status or priority level. *)
Definition canonical_name (v : string) : option string :=
  if String.eqb v "created" || String.eqb v "pending" then Some "pending"
  else if String.eqb v "assigned" || String.eqb v "in_progress"
          || String.eqb v "inprogress" then Some "in-progress"
  else if existsb (String.eqb v)
            ["overdue"; "completed"; "cancelled"; "low"; "medium"; "high"; "urgent"]
  then Some v
  else None.

Definition hyphen_for_underscore (c : ascii) : ascii :=
  if Ascii.eqb c "_" then "-"%char else c.

Fixpoint map_chars (f : ascii -> ascii) (s : string) : string :=
  match s with
  | EmptyString => EmptyString
  | String c s' => String (f c) (map_chars f s')
  end.

(** The class name the specification gives for a label. *)
Definition css_class_spec (s : string) : string :=
  if String.eqb s EmptyString then EmptyString
  else
    let v := strip (lower s) in
    match canonical_name v with
    | Some name => name
    | None => map_chars hyphen_for_underscore v
    end.

(** A line whose trimmed start matches a label prefix, whatever the
    case. *)
Definition matches_label (line : string) : bool :=
  existsb (fun prefix => String.prefix prefix (lower (strip line))) prefixes.

(** The comma-separated items after the label of a line: the pieces
    between the commas of the text after the first colon, trimmed, the
    blank ones left out. *)
Definition items_of_line (line : string) : list string :=
  service_list (strip (nth 1 (split_once ":" line) EmptyString)).

(** The items of all the matching lines, in the order of the text. *)
Definition services_spec (text : string) : list string :=
  flat_map (fun line => if matches_label line then items_of_line line else [])
    (split newline text).

(** The exceptions of the coercion step of [margin_percentage]: the three the first handler
    names, and [OverflowError]. *)
Definition coercion_error (e : exn) : Prop :=
  e = ValueError \/ e = TypeError \/ e = AttributeError \/ e = OverflowError.

(** What [elapsed_minutes] and [actual_time_minutes] return: an integer that is not negative. *)
Definition nonneg_int (v : pyval) : Prop := exists n : Z, v = PInt n /\ 0 <= n.

(** ** Sample inputs

    A clock showing 2025-01-15 12:00:00 UTC in the zone
    Africa/Dar_es_Salaam (three hours ahead of UTC the year round), and
    timestamps around it. *)

Definition sample_clock : clock :=
  {| now_utc := (739265 * 86400 + 12 * 3600) * us_per_second;
     zone_key := "Africa/Dar_es_Salaam";
     zone_offset_local := fun _ => 3 * 3600 * us_per_second;
     zone_offset_utc := fun _ => 3 * 3600 * us_per_second |}.

(** [minutes] minutes after the sample instant, on the wall clock of
    [tz], or naive on the wall clock of the current zone. *)
Definition sample_time (minutes : Z) (tz : option tzinfo) : datetime :=
  {| dt_wall := now_utc sample_clock + minutes * 60 * us_per_second
                + match tz with
                  | Some t => tz_offset t
                  | None => 3 * 3600 * us_per_second
                  end;
     dt_tz := tz |}.

Definition sample_order (completed cancelled started assigned created : pyval)
  : pyval :=
  PObj "Order" "ORD-0001"
    [("created_at", created); ("assigned_at", assigned); ("started_at", started);
     ("cancelled_at", cancelled); ("completed_at", completed)].

(** [c] occurs in [s]. *)
Fixpoint has_char (c : ascii) (s : string) : bool :=
  match s with
  | EmptyString => false
  | String x s' => Ascii.eqb x c || has_char c s'
  end.

(** A text that is empty or starts with a character outside [p]. *)
Definition head_outside (p : ascii -> bool) (s : string) : Prop :=
  match s with
  | EmptyString => True
  | String c _ => p c = false
  end.

(** The last character of [s] is [c]. *)
Fixpoint ends_with_char (c : ascii) (s : string) : bool :=
  match s with
  | EmptyString => false
  | String x EmptyString => Ascii.eqb x c
  | String _ s' => ends_with_char c s'
  end.

(** What [format_qty] does to the text of the number. *)
Definition trimmed_quantity (result : string) : string :=
  if contains "." result
  then rstrip_chars "." (rstrip_chars "0" result)
  else result.

(** * Properties *)

(** ** The error monad *)

Lemma bind_Return : forall (A B : Type) (m : result A) (k : A -> result B) (b : B),
  bind m k = Return b -> exists a, m = Return a /\ k a = Return b.
Proof.
  intros A B m k b H. destruct m as [a | e]; simpl in H.
  - exists a. split; [reflexivity | exact H].
  - discriminate H.
Qed.

Lemma bind_Raise : forall (A B : Type) (m : result A) (k : A -> result B) (e : exn),
  bind m k = Raise e ->
  m = Raise e \/ exists a, m = Return a /\ k a = Raise e.
Proof.
  intros A B m k e H. destruct m as [a | e']; simpl in H.
  - right. exists a. split; [reflexivity | exact H].
  - left. injection H as H. rewrite H. reflexivity.
Qed.

Lemma try_except_any : forall (A : Type) (body : result A) (fallback : A) (P : A -> Prop),
  P fallback ->
  (forall a, body = Return a -> P a) ->
  exists a, try_except body [(AnyException, Return fallback)] = Return a /\ P a.
Proof.
  intros A body fallback P Hf Hb. destruct body as [a | e]; simpl.
  - exists a. split; [reflexivity | apply Hb; reflexivity].
  - exists fallback. split; [reflexivity | exact Hf].
Qed.

(** ** What the coercion to a float can raise *)

Lemma float_of_string_raises : forall (s : string) (e : exn),
  float_of_string s = Raise e -> e = ValueError.
Proof.
  intros s e. unfold float_of_string.
  destruct (drop_underscores _ _) as [u |]; [| intros H; congruence].
  destruct (take_sign u) as [neg body].
  destruct (_ || _); [discriminate |].
  destruct (String.eqb _ _); [discriminate |].
  destruct (parse_numeral body) as [[c x] |]; [discriminate | congruence].
Qed.

Lemma py_float_raises : forall (v : pyval) (e : exn),
  py_float v = Raise e ->
  e = ValueError \/ e = TypeError \/ e = OverflowError.
Proof.
  intros v e H. destruct v; simpl in H; try discriminate H;
    try (right; left; congruence).
  - destruct (float_of_Z n); try discriminate H. right; right; congruence.
  - left. eapply float_of_string_raises; exact H.
  - left. destruct d as [neg c x | neg | neg sig p]; simpl in H.
    + eapply float_of_string_raises; exact H.
    + eapply float_of_string_raises; exact H.
    + destruct sig; [congruence | eapply float_of_string_raises; exact H].
Qed.

(** ** Filters that let an exception through *)

(** C1. The filters do not all return a default on malformed input:
    [format_qty] given the non-numeric string ['abc'] raises
    [decimal.InvalidOperation], which its handler for [ValueError],
    [TypeError] and [ZeroDivisionError] does not catch, and [replace]
    given the non-string argument [5] raises [TypeError], which its
    handler for [ValueError] and [AttributeError] does not catch. *)
Theorem filters_propagate_exceptions :
  format_qty (PStr "abc") = Raise InvalidOperation
  /\ replace (PStr "abc") (PInt 5) = Raise TypeError.
Proof.
  split; vm_compute; reflexivity.
Qed.

(** The quantities of the docstring of [format_qty]. *)
Example format_qty_examples :
  format_qty (PFloat (float_of_decimal false 400 (-2))) = Return (PStr "4")
  /\ format_qty (PFloat (float_of_decimal false 450 (-2))) = Return (PStr "4.5")
  /\ format_qty (PFloat (float_of_decimal false 405 (-2))) = Return (PStr "4.05")
  /\ format_qty PNone = Return (PStr "0")
  /\ format_qty (PStr EmptyString) = Return (PStr "0").
Proof.
  repeat split; vm_compute; reflexivity.
Qed.

(** C4. [format_qty] does not return the stringified input when the
    coercion fails: for every non-empty text that [Decimal] rejects, the
    filter raises [decimal.InvalidOperation] instead of returning the
    text. *)
Theorem format_qty_rejected_text_raises : forall s : string,
  s <> EmptyString ->
  decimal_of_string s = Raise InvalidOperation ->
  format_qty (PStr s) = Raise InvalidOperation.
Proof.
  intros s Hs Hd. unfold format_qty.
  assert (He : String.eqb s EmptyString = false)
    by (apply String.eqb_neq; exact Hs).
  simpl is_none. rewrite He. simpl orb. cbv iota.
  unfold to_decimal. rewrite Hd. reflexivity.
Qed.

Lemma format_qty_rejected_text_raises_witness :
  format_qty (PStr "4 pcs") = Raise InvalidOperation.
Proof.
  apply format_qty_rejected_text_raises.
  - discriminate.
  - vm_compute. reflexivity.
Defined.

(** The durations of the docstring of [format_minutes], a negative one
    and a text that is no number. *)
Example format_minutes_examples :
  format_minutes (PInt 90) = Return (PStr "1h 30m")
  /\ format_minutes (PInt 60) = Return (PStr "1h")
  /\ format_minutes (PInt 5) = Return (PStr "5m")
  /\ format_minutes (PInt (-5)) = Return (PStr "0m")
  /\ format_minutes (PStr "bad") = Return (PStr EmptyString).
Proof.
  repeat split; vm_compute; reflexivity.
Qed.

(** C8. [format_minutes] does not format every input that coerces to a
    number: on an infinite one, [int] raises [OverflowError], which the
    handler for [ValueError] and [TypeError] does not catch. *)
Theorem format_minutes_infinity_raises :
  py_float (PStr "inf") = Return (S754_infinity false)
  /\ format_minutes (PStr "inf") = Raise OverflowError
  /\ format_minutes (PFloat (S754_infinity false)) = Raise OverflowError.
Proof.
  repeat split; vm_compute; reflexivity.
Qed.

(** ** [margin_percentage] *)

Lemma call_get_raises : forall (v : pyval) (key : string) (d : pyval) (e : exn),
  call_get v key d = Raise e -> e = TypeError \/ e = AttributeError.
Proof.
  intros v key d e H. destruct v; simpl in H; try discriminate H;
    try (right; congruence).
  destruct (lookup "get" attrs); [left | right]; congruence.
Qed.

Lemma getattr_raises : forall (v : pyval) (name : string) (e : exn),
  getattr v name = Raise e -> e = AttributeError.
Proof.
  intros v name e H. destruct v; simpl in H; try congruence.
  destruct (lookup name attrs); congruence.
Qed.

Lemma py_float_coercion_error : forall v e, py_float v = Raise e -> coercion_error e.
Proof.
  intros v e H. apply py_float_raises in H. unfold coercion_error. tauto.
Qed.

Lemma call_get_coercion_error : forall v key d e,
  call_get v key d = Raise e -> coercion_error e.
Proof.
  intros v key d e H. apply call_get_raises in H. unfold coercion_error. tauto.
Qed.

Lemma getattr_coercion_error : forall v name e,
  getattr v name = Raise e -> coercion_error e.
Proof.
  intros v name e H. apply getattr_raises in H. unfold coercion_error. tauto.
Qed.

Ltac raise_step H :=
  apply bind_Raise in H;
  destruct H as [H | [? [_ H]]];
  [ first [ eapply py_float_coercion_error; exact H
          | eapply call_get_coercion_error; exact H
          | eapply getattr_coercion_error; exact H ] | ].

Lemma margin_operands_raises : forall (price cost_price : pyval) (e : exn),
  margin_operands price cost_price = Raise e -> coercion_error e.
Proof.
  intros price cost_price e H. unfold margin_operands in H.
  destruct (is_none cost_price && hasattr price "get").
  - do 4 raise_step H. discriminate H.
  - destruct (is_none cost_price && hasattr price "price" && hasattr price "cost_price").
    + do 4 raise_step H. discriminate H.
    + raise_step H.
      apply bind_Raise in H. destruct H as [H | [? [_ H]]]; [| discriminate H].
      destruct (negb (is_none cost_price)); [| discriminate H].
      raise_step H. discriminate H.
Qed.

Lemma positive_float_not_zero : forall x : float,
  float_leb x (S754_zero false) = false -> float_is_zero x = false.
Proof.
  intros x H. destruct x; try reflexivity. discriminate H.
Qed.

(** C3, the claim as stated, refuted: the coercion of the integer
    [10**400] fails ([OverflowError]) and the filter returns the empty
    string, not [0]. *)
Lemma margin_percentage_overflow_is_not_zero :
  py_float (PInt (10 ^ 400)) = Raise OverflowError
  /\ margin_percentage (PInt (10 ^ 400)) (PInt 60) = Return (PStr EmptyString)
  /\ margin_percentage (PInt (10 ^ 400)) (PInt 60) <> Return (PInt 0).
Proof.
  assert (H : margin_percentage (PInt (10 ^ 400)) (PInt 60) = Return (PStr EmptyString))
    by (vm_compute; reflexivity).
  split; [vm_compute; reflexivity |].
  split; [exact H |].
  rewrite H. discriminate.
Qed.

(** C3, amended. [margin_percentage(100, 60)] is [40.0],
    [margin_percentage(0, 60)] is [0], and the margin of the dictionary
    with price 100 and cost price 50 is [50.0].  For every pair of inputs:
    when the coercion of the operands succeeds, the result is [0] if the
    price or the cost is at most 0 and [((price - cost) / price) * 100]
    rounded to two decimals otherwise; when the coercion fails with
    [ValueError], [TypeError] or [AttributeError] the result is [0]; the
    only other failure of the coercion is [OverflowError], and then the
    result is the empty string. *)
Theorem margin_percentage_cases :
  margin_percentage (PInt 100) (PInt 60) = Return (PFloat (float_of_Z 40))
  /\ margin_percentage (PInt 0) (PInt 60) = Return (PInt 0)
  /\ margin_percentage (PDict [("price", PInt 100); ("cost_price", PInt 50)]) PNone
     = Return (PFloat (float_of_Z 50))
  /\ forall price cost_price : pyval,
       match margin_operands price cost_price with
       | Return (p, c) =>
           margin_percentage price cost_price =
             if float_leb p (S754_zero false) || le_zero c
             then Return (PInt 0)
             else Return (PFloat (float_round2
                    (fmul (fdiv (fsub p (number_to_float c)) p) (float_of_Z 100))))
       | Raise e =>
           ((e = ValueError \/ e = TypeError \/ e = AttributeError)
            /\ margin_percentage price cost_price = Return (PInt 0))
           \/ (e = OverflowError
               /\ margin_percentage price cost_price = Return (PStr EmptyString))
       end.
Proof.
  split; [vm_compute; reflexivity |].
  split; [vm_compute; reflexivity |].
  split; [vm_compute; reflexivity |].
  intros price cost_price. unfold margin_percentage.
  destruct (margin_operands price cost_price) as [[p c] | e] eqn:Hops.
  - simpl bind. cbv iota beta.
    destruct (float_leb p (S754_zero false)) eqn:Hp; [reflexivity |].
    destruct (le_zero c) eqn:Hc; [reflexivity |].
    simpl orb. cbv iota. unfold margin_of, float_truediv.
    rewrite (positive_float_not_zero p Hp). reflexivity.
  - apply margin_operands_raises in Hops.
    destruct Hops as [H | [H | [H | H]]]; subst e; simpl.
    + left. split; [tauto | reflexivity].
    + left. split; [tauto | reflexivity].
    + left. split; [tauto | reflexivity].
    + right. split; reflexivity.
Qed.

(** ** [elapsed_minutes] and [actual_time_minutes] *)

Ltac bind_inv H :=
  let a := fresh "a" in
  let Ha := fresh "Ha" in
  apply bind_Return in H; destruct H as [a [Ha H]].

Lemma int_of_max_zero_nonneg : forall (q : float) (n : Z),
  int_of_number (max_zero q) = Return n -> 0 <= n.
Proof.
  intros q n H. unfold max_zero in H.
  destruct (float_ltb (S754_zero false) q) eqn:Hq;
    cbn [int_of_number int_of_float] in H.
  - destruct q as [s | s | | s m e]; try discriminate H.
    + injection H as H. lia.
    + destruct s; [discriminate Hq |].
      injection H as H. subst n.
      destruct (0 <=? e) eqn:He.
      * change (0 <= Z.pos m * 2 ^ e).
        apply Z.mul_nonneg_nonneg; [lia |].
        apply Z.pow_nonneg. lia.
      * change (0 <= Z.pos m / 2 ^ (- e)).
        apply Z.div_pos; [lia |].
        apply Z.pow_pos_nonneg; lia.
  - injection H as H. lia.
Qed.

Lemma whole_minutes_nonneg : forall (delta : timedelta) (n : Z),
  whole_minutes delta = Return n -> 0 <= n.
Proof.
  intros delta n H. unfold whole_minutes in H.
  bind_inv H. eapply int_of_max_zero_nonneg. exact H.
Qed.

Lemma nonneg_int_zero : nonneg_int (PInt 0).
Proof. exists 0. split; [reflexivity | lia]. Qed.

Lemma nonneg_int_whole_minutes : forall (delta : timedelta) (n : Z) (v : pyval),
  whole_minutes delta = Return n -> Return (PInt n) = Return v -> nonneg_int v.
Proof.
  intros delta n v Hn Hv. injection Hv as Hv. subst v.
  exists n. split; [reflexivity | eapply whole_minutes_nonneg; exact Hn].
Qed.

Lemma elapsed_minutes_nonneg : forall (clk : clock) (order : pyval),
  exists v, elapsed_minutes clk order = Return v /\ nonneg_int v.
Proof.
  intros clk order. unfold elapsed_minutes.
  apply try_except_any; [apply nonneg_int_zero |].
  intros v H. bind_inv H.
  destruct (negb (truthy a)).
  - injection H as H. subst v. apply nonneg_int_zero.
  - do 3 bind_inv H. bind_inv H.
    eapply nonneg_int_whole_minutes; eassumption.
Qed.

Lemma actual_time_minutes_nonneg : forall (clk : clock) (order : pyval),
  exists v, actual_time_minutes clk order = Return v /\ nonneg_int v.
Proof.
  intros clk order. unfold actual_time_minutes.
  apply try_except_any; [apply nonneg_int_zero |].
  intros v H.
  destruct (negb (truthy order)).
  - injection H as H. subst v. apply nonneg_int_zero.
  - do 2 bind_inv H.
    destruct (negb (truthy a0)).
    + injection H as H. subst v. apply nonneg_int_zero.
    + do 6 bind_inv H.
      eapply nonneg_int_whole_minutes; eassumption.
Qed.

(** C5. For every clock and every input, whatever timestamps it carries,
    [elapsed_minutes] and [actual_time_minutes] return an integer, and
    this integer is never negative: it is [0], the fallback of the
    filter, or [int(max(0, minutes))] for the floored minute
    difference. *)
Theorem minutes_filters_never_negative : forall (clk : clock) (order : pyval),
  (exists n : Z, elapsed_minutes clk order = Return (PInt n) /\ 0 <= n)
  /\ (exists n : Z, actual_time_minutes clk order = Return (PInt n) /\ 0 <= n).
Proof.
  intros clk order. split.
  - destruct (elapsed_minutes_nonneg clk order) as [v [Hv [n [Hn Hpos]]]].
    subst v. exists n. split; assumption.
  - destruct (actual_time_minutes_nonneg clk order) as [v [Hv [n [Hn Hpos]]]].
    subst v. exists n. split; assumption.
Qed.

(** ** [format_minutes], apart from the infinite values

    Apart from the infinite values, [format_minutes] does what its
    contract says: a value that coerces to a float other than the positive
    infinity is clamped at 0 and laid out as hours and minutes, and a
    value whose coercion raises [ValueError] or [TypeError] gives the
    empty string. *)
Lemma int_of_max_zero_defined : forall x : float,
  x <> S754_infinity false ->
  exists n : Z, int_of_number (max_zero x) = Return n /\ 0 <= n.
Proof.
  intros x Hx.
  assert (Hex : exists n : Z, int_of_number (max_zero x) = Return n).
  { unfold max_zero.
    destruct (float_ltb (S754_zero false) x) eqn:Hlt; [| exists 0; reflexivity].
    destruct x as [s | s | | s m e]; try discriminate Hlt.
    - destruct s; [discriminate Hlt | contradiction Hx; reflexivity].
    - cbn [int_of_number int_of_float]. eexists. reflexivity. }
  destruct Hex as [n Hn]. exists n.
  split; [exact Hn | eapply int_of_max_zero_nonneg; exact Hn].
Qed.

Lemma format_minutes_finite : forall (v : pyval) (x : float),
  is_none v = false ->
  py_float v = Return x ->
  x <> S754_infinity false ->
  exists total : Z,
    0 <= total
    /\ format_minutes v = Return (PStr (minutes_text (total / 60) (total mod 60))).
Proof.
  intros v x Hv Hx Hfin. unfold format_minutes. rewrite Hv, Hx.
  destruct (int_of_max_zero_defined x Hfin) as [n [Hn Hpos]].
  exists n. split; [exact Hpos |].
  cbn [bind]. rewrite Hn. reflexivity.
Qed.

(** X28. [format_minutes] gives the empty string for every value whose
    coercion to a float raises [ValueError] or [TypeError]: a text that
    is no number, a list, a dictionary, a record, a datetime. *)
Lemma format_minutes_not_numeric : forall (v : pyval) (e : exn),
  py_float v = Raise e ->
  e <> OverflowError ->
  format_minutes v = Return (PStr EmptyString).
Proof.
  intros v e Hv He. unfold format_minutes.
  destruct (is_none v); [reflexivity |].
  rewrite Hv. cbn [bind try_except handle].
  destruct (py_float_raises v e Hv) as [-> | [-> | ->]];
    [reflexivity | reflexivity | contradiction He; reflexivity].
Qed.

(** ** [order_last_update] *)

Lemma first_timestamp_first_non_null :
  forall (clk : clock) (order : pyval) (names : list string),
    (forall name, In name names ->
       timestamp_or_null (getattr_default order name PNone)) ->
    first_timestamp clk order names =
      Return (PDatetime
        match first_non_null (map (fun name => getattr_default order name PNone) names) with
        | PDatetime d => coerced_aware clk d
        | _ => tz_now clk
        end).
Proof.
  intros clk order names. induction names as [| name rest IH]; intros Hall.
  - reflexivity.
  - assert (Hhead := Hall name (or_introl eq_refl)).
    assert (Hrest : forall n, In n rest ->
              timestamp_or_null (getattr_default order n PNone))
      by (intros n Hn; apply Hall; right; exact Hn).
    specialize (IH Hrest).
    cbn [first_timestamp map first_non_null].
    destruct (getattr_default order name PNone) as [| | | | | | d | | |];
      try contradiction.
    + exact IH.
    + cbn [truthy is_naive bind]. unfold make_aware, coerced_aware, utcoffset.
      destruct (dt_tz d) as [t |]; reflexivity.
Qed.

(** C2. For a record whose five timestamp fields each hold a timestamp or
    nothing, [order_last_update] returns the first field that is set, in
    the order [completed_at], [cancelled_at], [started_at], [assigned_at],
    [created_at], made time-zone aware if it is naive; so it returns
    [completed_at] whenever that field is set, whatever the other four
    hold; and it returns the current time when none of the five is set. *)
Theorem order_last_update_priority :
  forall (clk : clock) (class text : string) (attrs : list (string * pyval)),
    let order := PObj class text attrs in
    let field := fun name => getattr_default order name PNone in
    (forall name, In name timestamp_fields -> timestamp_or_null (field name)) ->
    order_last_update clk order =
      Return (PDatetime
        match first_non_null (map field timestamp_fields) with
        | PDatetime d => coerced_aware clk d
        | _ => tz_now clk
        end)
    /\ (forall d, field "completed_at" = PDatetime d ->
          order_last_update clk order = Return (PDatetime (coerced_aware clk d)))
    /\ (first_non_null (map field timestamp_fields) = PNone ->
          order_last_update clk order = Return (PDatetime (tz_now clk))).
Proof.
  intros clk class text attrs order field Hall.
  assert (Hgen : order_last_update clk order =
      Return (PDatetime
        match first_non_null (map field timestamp_fields) with
        | PDatetime d => coerced_aware clk d
        | _ => tz_now clk
        end)).
  { subst order field. unfold order_last_update. cbn [truthy negb].
    rewrite (first_timestamp_first_non_null clk (PObj class text attrs)
               timestamp_fields Hall).
    reflexivity. }
  split; [exact Hgen |]. split.
  - intros d Hd. rewrite Hgen.
    unfold timestamp_fields. cbn [map first_non_null].
    rewrite Hd. reflexivity.
  - intros Hnone. rewrite Hgen, Hnone. reflexivity.
Qed.

Lemma order_last_update_priority_witness :
  order_last_update sample_clock
    (sample_order (PDatetime (sample_time (-5) None))
                  (PDatetime (sample_time (-10) (Some UTC)))
                  (PDatetime (sample_time (-60) (Some UTC)))
                  (PDatetime (sample_time (-90) None))
                  (PDatetime (sample_time (-120) (Some UTC))))
  = Return (PDatetime (coerced_aware sample_clock (sample_time (-5) None))).
Proof.
  assert (Hfields : forall name, In name timestamp_fields ->
            timestamp_or_null
              (getattr_default
                 (sample_order (PDatetime (sample_time (-5) None))
                    (PDatetime (sample_time (-10) (Some UTC)))
                    (PDatetime (sample_time (-60) (Some UTC)))
                    (PDatetime (sample_time (-90) None))
                    (PDatetime (sample_time (-120) (Some UTC))))
                 name PNone)).
  { intros name Hin. cbn in Hin.
    destruct Hin as [H | [H | [H | [H | [H | H]]]]];
      try (rewrite <- H; exact I).
    contradiction. }
  exact (proj1 (proj2 (order_last_update_priority sample_clock _ _ _ Hfields))
           (sample_time (-5) None) eq_refl).
Defined.

(** ** [timesince_days] *)

Lemma negative_delta_days : forall delta : timedelta,
  delta < 0 -> delta_days delta <= -1.
Proof.
  intros delta H. unfold delta_days.
  assert (Hlt : delta / us_per_day < 0).
  { apply Z.div_lt_upper_bound; [reflexivity | lia]. }
  lia.
Qed.

(** C10. [timesince_days] does not clamp: for every timestamp, naive or
    aware, that denotes an instant strictly after the current one, it
    returns the number of days of the negative difference, an integer that
    is at most -1. *)
Theorem timesince_days_future_negative : forall (clk : clock) (d : datetime),
  now_utc clk < instant clk d ->
  exists n : Z,
    timesince_days clk (PDatetime d) = Return (PInt n)
    /\ n = delta_days (now_utc clk - instant clk d)
    /\ n <= -1.
Proof.
  intros clk d Hfuture.
  exists (delta_days (now_utc clk - instant clk d)).
  split; [| split; [reflexivity | apply negative_delta_days; lia]].
  unfold timesince_days, instant, coerced_aware in *.
  destruct d as [w tz]. cbn [truthy negb is_naive utcoffset dt_tz dt_wall] in *.
  destruct tz as [[| key off] |]; cbn; f_equal; f_equal; f_equal; lia.
Qed.

Lemma timesince_days_future_negative_witness :
  exists n : Z,
    timesince_days sample_clock (PDatetime (sample_time 1 None)) = Return (PInt n)
    /\ n = delta_days (now_utc sample_clock - instant sample_clock (sample_time 1 None))
    /\ n <= -1.
Proof.
  apply (timesince_days_future_negative sample_clock (sample_time 1 None)).
  vm_compute. reflexivity.
Defined.

(** ** [to_css_class] *)

Lemma prefix_empty : forall s : string, String.prefix EmptyString s = true.
Proof. intros s. destruct s; reflexivity. Qed.

Lemma replace_underscore_map_chars : forall v : string,
  str_replace "_" "-" v = map_chars hyphen_for_underscore v.
Proof.
  intros v. unfold str_replace.
  induction v as [| c v IH].
  - reflexivity.
  - cbn [replace_from map_chars String.prefix String.length Nat.pred].
    unfold hyphen_for_underscore at 1.
    destruct (Ascii.eqb_spec c "_") as [Hc | Hc].
    + subst c. cbn. rewrite prefix_empty, IH. reflexivity.
    + destruct (ascii_dec "_" c) as [Hd | Hd].
      * exfalso. apply Hc. symmetry. exact Hd.
      * rewrite IH. reflexivity.
Qed.

Lemma status_mapping_canonical_name : forall v d : string,
  dict_get status_mapping v d =
    match canonical_name v with
    | Some name => name
    | None => d
    end.
Proof.
  intros v d. unfold dict_get, status_mapping, canonical_name.
  cbn [lookup existsb].
  repeat match goal with
         | |- context [String.eqb ?k v] =>
             rewrite (String.eqb_sym k v)
         end.
  repeat match goal with
         | |- context [String.eqb v ?k] =>
             destruct (String.eqb_spec v k) as [-> | _]; cbn;
             [reflexivity |]
         end.
  reflexivity.
Qed.

Lemma to_css_class_css_class_spec : forall s : string,
  to_css_class (PStr s) = PStr (css_class_spec s).
Proof.
  intros s. unfold to_css_class, css_class_spec. cbn [truthy py_str].
  destruct (String.eqb s EmptyString); cbn [negb].
  - reflexivity.
  - rewrite status_mapping_canonical_name, replace_underscore_map_chars.
    reflexivity.
Qed.

(** C6. [to_css_class('IN_PROGRESS')] is ['in-progress'],
    [to_css_class('unknown_status')] is ['unknown-status'] and
    [to_css_class('')] is ['']; for every input string, the empty one
    gives the empty string, and any other one is lowercased and trimmed,
    then mapped to its canonical name if it is a known status or priority
    level, and has its underscores replaced by hyphens otherwise. *)
Theorem to_css_class_normalizes :
  to_css_class (PStr "IN_PROGRESS") = PStr "in-progress"
  /\ to_css_class (PStr "unknown_status") = PStr "unknown-status"
  /\ to_css_class (PStr EmptyString) = PStr EmptyString
  /\ forall s : string, to_css_class (PStr s) = PStr (css_class_spec s).
Proof.
  split; [vm_compute; reflexivity |].
  split; [vm_compute; reflexivity |].
  split; [vm_compute; reflexivity |].
  exact to_css_class_css_class_spec.
Qed.

(** *** Idempotence *)

Lemma lower_char_idempotent : forall c : ascii,
  lower_char (lower_char c) = lower_char c.
Proof.
  intros c. destruct c as [[] [] [] [] [] [] [] []]; vm_compute; reflexivity.
Qed.

Lemma lower_idempotent : forall s : string, lower (lower s) = lower s.
Proof.
  induction s as [| c s IH]; cbn [lower].
  - reflexivity.
  - rewrite lower_char_idempotent, IH. reflexivity.
Qed.

Lemma lower_cons : forall (c : ascii) (s : string),
  lower (String c s) = String c s -> lower_char c = c /\ lower s = s.
Proof.
  intros c s H. cbn [lower] in H. injection H as Hc Hs. split; assumption.
Qed.

Lemma lower_lstrip_by : forall (p : ascii -> bool) (s : string),
  lower s = s -> lower (lstrip_by p s) = lstrip_by p s.
Proof.
  intros p s. induction s as [| c s IH]; intros H; cbn [lstrip_by].
  - reflexivity.
  - destruct (p c).
    + apply IH. apply (lower_cons c s H).
    + exact H.
Qed.

Lemma lower_rstrip_by : forall (p : ascii -> bool) (s : string),
  lower s = s -> lower (rstrip_by p s) = rstrip_by p s.
Proof.
  intros p s. induction s as [| c s IH]; intros H; cbn [rstrip_by].
  - reflexivity.
  - destruct (lower_cons c s H) as [Hc Hs]. specialize (IH Hs).
    destruct (rstrip_by p s) as [| c' r].
    + destruct (p c); cbn [lower]; [reflexivity | rewrite Hc; reflexivity].
    + cbn [lower] in *. rewrite Hc, IH. reflexivity.
Qed.

Lemma lower_strip_lower : forall s : string,
  lower (strip (lower s)) = strip (lower s).
Proof.
  intros s. unfold strip.
  apply lower_rstrip_by, lower_lstrip_by, lower_idempotent.
Qed.

Lemma rstrip_by_idempotent : forall (p : ascii -> bool) (s : string),
  rstrip_by p (rstrip_by p s) = rstrip_by p s.
Proof.
  intros p s. induction s as [| c s IH]; cbn [rstrip_by].
  - reflexivity.
  - destruct (rstrip_by p s) as [| c' r] eqn:Hr.
    + destruct (p c) eqn:Hp; cbn [rstrip_by]; [reflexivity |].
      rewrite Hp. reflexivity.
    + cbn [rstrip_by] in *. rewrite IH. reflexivity.
Qed.

Lemma head_outside_lstrip_by : forall (p : ascii -> bool) (s : string),
  head_outside p (lstrip_by p s).
Proof.
  intros p s. induction s as [| c s IH]; cbn [lstrip_by].
  - exact I.
  - destruct (p c) eqn:Hp; [exact IH | exact Hp].
Qed.

Lemma head_outside_rstrip_by : forall (p : ascii -> bool) (s : string),
  head_outside p s -> head_outside p (rstrip_by p s).
Proof.
  intros p s H. destruct s as [| c s]; cbn [rstrip_by].
  - exact I.
  - cbn [head_outside] in H.
    destruct (rstrip_by p s); [rewrite H |]; exact H.
Qed.

Lemma lstrip_by_head_outside : forall (p : ascii -> bool) (s : string),
  head_outside p s -> lstrip_by p s = s.
Proof.
  intros p s H. destruct s as [| c s]; cbn [lstrip_by].
  - reflexivity.
  - cbn [head_outside] in H. rewrite H. reflexivity.
Qed.

Lemma strip_idempotent : forall s : string, strip (strip s) = strip s.
Proof.
  intros s. unfold strip.
  rewrite (lstrip_by_head_outside is_space (rstrip_by is_space (lstrip_by is_space s))).
  - apply rstrip_by_idempotent.
  - apply head_outside_rstrip_by, head_outside_lstrip_by.
Qed.

Lemma is_space_hyphen_for_underscore : forall c : ascii,
  is_space (hyphen_for_underscore c) = is_space c.
Proof.
  intros c. unfold hyphen_for_underscore.
  destruct (Ascii.eqb_spec c "_") as [-> | _]; reflexivity.
Qed.

Lemma lstrip_map_chars : forall s : string,
  lstrip_by is_space (map_chars hyphen_for_underscore s)
  = map_chars hyphen_for_underscore (lstrip_by is_space s).
Proof.
  induction s as [| c s IH]; cbn [map_chars lstrip_by].
  - reflexivity.
  - rewrite is_space_hyphen_for_underscore.
    destruct (is_space c); [exact IH | reflexivity].
Qed.

Lemma rstrip_map_chars : forall s : string,
  rstrip_by is_space (map_chars hyphen_for_underscore s)
  = map_chars hyphen_for_underscore (rstrip_by is_space s).
Proof.
  induction s as [| c s IH]; cbn [map_chars rstrip_by].
  - reflexivity.
  - rewrite IH, is_space_hyphen_for_underscore.
    destruct (rstrip_by is_space s) as [| c' r]; cbn [map_chars].
    + destruct (is_space c); reflexivity.
    + reflexivity.
Qed.

Lemma strip_map_chars : forall s : string,
  strip (map_chars hyphen_for_underscore s)
  = map_chars hyphen_for_underscore (strip s).
Proof.
  intros s. unfold strip. rewrite lstrip_map_chars, rstrip_map_chars. reflexivity.
Qed.

Lemma lower_map_chars : forall s : string,
  lower s = s ->
  lower (map_chars hyphen_for_underscore s) = map_chars hyphen_for_underscore s.
Proof.
  induction s as [| c s IH]; intros H; cbn [map_chars lower].
  - reflexivity.
  - destruct (lower_cons c s H) as [Hc Hs]. rewrite (IH Hs). f_equal.
    unfold hyphen_for_underscore.
    destruct (Ascii.eqb c "_"); [reflexivity | exact Hc].
Qed.

Lemma map_chars_idempotent : forall s : string,
  map_chars hyphen_for_underscore (map_chars hyphen_for_underscore s)
  = map_chars hyphen_for_underscore s.
Proof.
  induction s as [| c s IH]; cbn [map_chars].
  - reflexivity.
  - rewrite IH. f_equal. unfold hyphen_for_underscore.
    destruct (Ascii.eqb_spec c "_") as [-> | Hc]; [reflexivity |].
    destruct (Ascii.eqb_spec c "_"); [contradiction | reflexivity].
Qed.

Lemma map_chars_no_underscore : forall s : string,
  has_char "_" (map_chars hyphen_for_underscore s) = false.
Proof.
  induction s as [| c s IH]; cbn [map_chars has_char].
  - reflexivity.
  - rewrite IH. unfold hyphen_for_underscore.
    destruct (Ascii.eqb_spec c "_") as [-> | Hc]; [reflexivity |].
    destruct (Ascii.eqb_spec c "_"); [contradiction | reflexivity].
Qed.

Lemma map_chars_without_hyphen : forall s : string,
  has_char "-" (map_chars hyphen_for_underscore s) = false ->
  map_chars hyphen_for_underscore s = s.
Proof.
  induction s as [| c s IH]; cbn [map_chars has_char]; intros H.
  - reflexivity.
  - apply orb_false_iff in H. destruct H as [Hc Hs].
    rewrite (IH Hs). f_equal. unfold hyphen_for_underscore in *.
    destruct (Ascii.eqb c "_"); [discriminate Hc | reflexivity].
Qed.

Lemma canonical_name_known : forall x n : string,
  canonical_name x = Some n -> In x (map fst status_mapping).
Proof.
  intros x n. unfold canonical_name. cbn [existsb map fst status_mapping].
  repeat match goal with
         | |- context [String.eqb x ?k] =>
             destruct (String.eqb_spec x k) as [-> | _];
             [intros _; repeat (first [left; reflexivity | right]) |]
         end.
  cbn. discriminate.
Qed.

Lemma canonical_name_fixed : forall v n : string,
  canonical_name v = Some n -> css_class_spec n = n.
Proof.
  intros v n. unfold canonical_name. cbn [existsb].
  repeat match goal with
         | |- context [String.eqb v ?k] =>
             destruct (String.eqb_spec v k) as [-> | _];
             [cbn; intros H; injection H as <-; vm_compute; reflexivity |]
         end.
  cbn. discriminate.
Qed.

Lemma canonical_name_map_chars_none : forall v : string,
  canonical_name v = None ->
  canonical_name (map_chars hyphen_for_underscore v) = None.
Proof.
  intros v Hv.
  destruct (canonical_name (map_chars hyphen_for_underscore v)) as [n |] eqn:E;
    [exfalso | reflexivity].
  apply canonical_name_known in E. cbn [map fst status_mapping In] in E.
  assert (Hsame : has_char "-" (map_chars hyphen_for_underscore v) = false ->
                  canonical_name (map_chars hyphen_for_underscore v) = None).
  { intros Hh. rewrite (map_chars_without_hyphen v Hh). exact Hv. }
  pose proof (map_chars_no_underscore v) as Hu.
  repeat match type of E with
         | _ \/ _ => destruct E as [E | E]
         end;
    try contradiction;
    rewrite <- E in Hu, Hsame;
    first [ discriminate Hu
          | specialize (Hsame eq_refl); vm_compute in Hsame; discriminate Hsame ].
Qed.

Lemma css_class_spec_idempotent : forall s : string,
  css_class_spec (css_class_spec s) = css_class_spec s.
Proof.
  intros s. unfold css_class_spec at 2 3.
  destruct (String.eqb s EmptyString); [reflexivity |].
  destruct (canonical_name (strip (lower s))) as [n |] eqn:Hn.
  - eapply canonical_name_fixed. exact Hn.
  - unfold css_class_spec.
    destruct (String.eqb_spec (map_chars hyphen_for_underscore (strip (lower s)))
                EmptyString) as [He | _].
    + symmetry. exact He.
    + rewrite (lower_map_chars _ (lower_strip_lower s)).
      rewrite strip_map_chars, strip_idempotent.
      rewrite (canonical_name_map_chars_none _ Hn).
      apply map_chars_idempotent.
Qed.

(** C7. [to_css_class] is idempotent on canonical forms: for every string
    [v] that is an output of [to_css_class], applying the filter twice
    gives what applying it once gives.  (The equation holds for every
    string, canonical or not: [css_class_spec_idempotent].) *)
Theorem to_css_class_idempotent : forall v : string,
  (exists s : string, to_css_class (PStr s) = PStr v) ->
  to_css_class (to_css_class (PStr v)) = to_css_class (PStr v).
Proof.
  intros v _.
  rewrite !to_css_class_css_class_spec.
  rewrite css_class_spec_idempotent. reflexivity.
Qed.

Lemma to_css_class_idempotent_witness :
  to_css_class (to_css_class (PStr "in-progress")) = to_css_class (PStr "in-progress").
Proof.
  apply to_css_class_idempotent.
  exists "IN_PROGRESS". vm_compute. reflexivity.
Defined.

(** ** [extract_services] *)

Lemma prefix_cons_inv : forall (x : ascii) (p s : string),
  String.prefix (String x p) s = true ->
  exists r, s = String x r /\ String.prefix p r = true.
Proof.
  intros x p s H. destruct s as [| c r]; cbn in H; [discriminate H |].
  destruct (ascii_dec x c) as [-> | _]; [| discriminate H].
  exists r. split; [reflexivity | exact H].
Qed.

Ltac head_of H :=
  let r := fresh "r" in
  let E := fresh "E" in
  let Hp := fresh "Hp" in
  apply prefix_cons_inv in H; destruct H as [r [E Hp]];
  subst; try clear H; rename Hp into H.

(** No line starts with two of the label prefixes. *)
Lemma label_prefixes_exclusive : forall s : string,
  (String.prefix "selected services:" s = true ->
     String.prefix "services:" s = false
     /\ String.prefix "tire services:" s = false
     /\ String.prefix "add-ons:" s = false)
  /\ (String.prefix "services:" s = true ->
        String.prefix "tire services:" s = false
        /\ String.prefix "add-ons:" s = false)
  /\ (String.prefix "tire services:" s = true ->
        String.prefix "add-ons:" s = false).
Proof.
  intros s. split; [| split]; intros H; do 3 head_of H; repeat split; reflexivity.
Qed.

Lemma split_once_without_sep : forall sep s : string,
  contains sep s = false -> split_once sep s = [s].
Proof.
  intros sep s. induction s as [| c s IH]; intros H.
  - reflexivity.
  - cbn [contains] in H. apply orb_false_iff in H. destruct H as [Hp Hc].
    cbn [split_once]. rewrite Hp, (IH Hc). reflexivity.
Qed.

Lemma service_list_empty : service_list EmptyString = [].
Proof. reflexivity. Qed.

(** The text a matching line contributes, whether it holds a colon or
    not. *)
Lemma services_text_items : forall line : string,
  service_list (if contains ":" line
                then strip (nth 1 (split_once ":" line) EmptyString)
                else EmptyString)
  = items_of_line line.
Proof.
  intros line. unfold items_of_line.
  destruct (contains ":" line) eqn:Hc; [reflexivity |].
  rewrite (split_once_without_sep ":" line Hc). reflexivity.
Qed.

(** One step of the inner loop adds the items of the line when the prefix
    matches. *)
Lemma scan_prefixes_step :
  forall (line line_lower prefix : string) (rest services : list string),
    scan_prefixes line line_lower (prefix :: rest) services =
      scan_prefixes line line_lower rest
        (services ++ if String.prefix prefix line_lower
                     then items_of_line line else []).
Proof.
  intros line line_lower prefix rest services.
  cbn [scan_prefixes]. unfold startswith.
  destruct (String.prefix prefix line_lower).
  - rewrite <- services_text_items.
    destruct (contains ":" line).
    + destruct (String.eqb_spec (strip (nth 1 (split_once ":" line) EmptyString))
                  EmptyString) as [-> | _]; cbn [negb].
      * rewrite service_list_empty, app_nil_r. reflexivity.
      * reflexivity.
    + cbn. rewrite app_nil_r. reflexivity.
  - rewrite app_nil_r. reflexivity.
Qed.

Lemma scan_prefixes_labels : forall (line : string) (services : list string),
  scan_prefixes line (lower (strip line)) prefixes services =
    (services ++ if matches_label line then items_of_line line else [])%list.
Proof.
  intros line services. unfold matches_label, prefixes.
  rewrite !scan_prefixes_step. cbn [scan_prefixes existsb].
  destruct (label_prefixes_exclusive (lower (strip line))) as [H1 [H2 H3]].
  destruct (String.prefix "selected services:" (lower (strip line))) eqn:E1.
  - destruct (H1 eq_refl) as [-> [-> ->]]. cbn. rewrite !app_nil_r. reflexivity.
  - destruct (String.prefix "services:" (lower (strip line))) eqn:E2.
    + destruct (H2 eq_refl) as [-> ->]. cbn. rewrite !app_nil_r. reflexivity.
    + destruct (String.prefix "tire services:" (lower (strip line))) eqn:E3.
      * rewrite (H3 eq_refl). cbn. rewrite !app_nil_r. reflexivity.
      * cbn. rewrite !app_nil_r, orb_false_r. reflexivity.
Qed.

Lemma scan_lines_flat_map : forall (lines : list string) (services : list string),
  scan_lines lines services =
    (services
     ++ flat_map (fun line => if matches_label line then items_of_line line else [])
          lines)%list.
Proof.
  induction lines as [| line rest IH]; intros services; cbn [scan_lines flat_map].
  - rewrite app_nil_r. reflexivity.
  - rewrite IH, scan_prefixes_labels, <- app_assoc. reflexivity.
Qed.

(** C9. [extract_services] on the text of the example returns the two
    services of its first line and ignores the second one; for every
    text the result is the list of the comma-separated items of every
    line whose trimmed, lowercased start is one of the four label
    prefixes, line after line and item after item, duplicates kept (an
    item is a piece between commas, trimmed; a blank piece is no item);
    the empty text gives the empty list. *)
Theorem extract_services_lists_items :
  extract_services
    (PStr ("Services: Oil Change, Tire Rotation" ++ newline ++ "Other: x"))
  = Return (PList [PStr "Oil Change"; PStr "Tire Rotation"])
  /\ (forall text : string,
        extract_services (PStr text) = Return (PList (map PStr (services_spec text))))
  /\ extract_services (PStr EmptyString) = Return (PList []).
Proof.
  split; [vm_compute; reflexivity |].
  split; [| reflexivity].
  intros text. unfold extract_services, services_spec. cbn [truthy].
  destruct (String.eqb_spec text EmptyString) as [-> | _]; cbn [negb].
  - reflexivity.
  - rewrite scan_lines_flat_map. reflexivity.
Qed.

(** * Further properties of the filters *)

(** ** [div] and [mul] *)

(** X1. [div] lets one exception through and no other: [OverflowError],
    raised by the coercion of an integer too large for a float; a
    division by zero and a value that is no number are absorbed. *)
Theorem div_raises_only_overflow : forall (value arg : pyval) (e : exn),
  div value arg = Raise e ->
  e = OverflowError
  /\ (py_float value = Raise OverflowError \/ py_float arg = Raise OverflowError).
Proof.
  intros value arg e H. unfold div in H.
  destruct (is_none value || is_none arg); [discriminate H |].
  destruct (py_float value) as [x | e1] eqn:Hx.
  - destruct (py_float arg) as [y | e2] eqn:Hy.
    + cbn [bind] in H. unfold float_truediv in H.
      destruct (float_is_zero y); discriminate H.
    + destruct (py_float_raises arg e2 Hy) as [-> | [-> | ->]];
        cbn in H; try discriminate H.
      injection H as <-. split; [reflexivity | right; reflexivity].
  - destruct (py_float_raises value e1 Hx) as [-> | [-> | ->]];
      cbn in H; try discriminate H.
    injection H as <-. split; [reflexivity | left; reflexivity].
Qed.

Lemma div_raises_only_overflow_witness :
  div (PInt (10 ^ 400)) (PInt 1) = Raise OverflowError
  /\ OverflowError = OverflowError
  /\ (py_float (PInt (10 ^ 400)) = Raise OverflowError
      \/ py_float (PInt 1) = Raise OverflowError).
Proof.
  assert (H : div (PInt (10 ^ 400)) (PInt 1) = Raise OverflowError)
    by (vm_compute; reflexivity).
  split; [exact H |].
  exact (div_raises_only_overflow (PInt (10 ^ 400)) (PInt 1) OverflowError H).
Defined.

(** X2. [div] by a zero returns the integer 0: whenever the divisor
    coerces to a float zero and the dividend is not an integer too large
    for a float, whatever else the dividend is. *)
Theorem div_by_zero_is_zero : forall (value arg : pyval) (y : float),
  py_float arg = Return y ->
  float_is_zero y = true ->
  py_float value <> Raise OverflowError ->
  div value arg = Return (PInt 0).
Proof.
  intros value arg y Hy Hzero Hvalue. unfold div.
  destruct (is_none value || is_none arg); [reflexivity |].
  destruct (py_float value) as [x | e1] eqn:Hx.
  - rewrite Hy. cbn [bind]. unfold float_truediv. rewrite Hzero. reflexivity.
  - destruct (py_float_raises value e1 Hx) as [-> | [-> | ->]];
      [reflexivity | reflexivity | contradiction Hvalue; reflexivity].
Qed.

Lemma div_by_zero_is_zero_witness :
  div (PInt 10) (PStr "-0.0") = Return (PInt 0).
Proof.
  apply (div_by_zero_is_zero (PInt 10) (PStr "-0.0") (S754_zero true)).
  - vm_compute. reflexivity.
  - reflexivity.
  - vm_compute. discriminate.
Defined.




(** The order of the operands shows on an integer too large for a float:
    the coercion of the first operand is the one that raises or is
    absorbed. *)
Example mul_order_of_coercions :
  mul (PInt (10 ^ 400)) (PStr "x") = Raise OverflowError
  /\ mul (PStr "x") (PInt (10 ^ 400)) = Return (PInt 0).
Proof.
  split; vm_compute; reflexivity.
Qed.

(** ** [absolute_value] *)

Lemma float_abs_idempotent : forall x : float, float_abs (float_abs x) = float_abs x.
Proof. intros x. destruct x; reflexivity. Qed.

Lemma float_abs_not_negative : forall x : float, float_is_neg (float_abs x) = false.
Proof. intros x. destruct x; reflexivity. Qed.

(** The result of [absolute_value], by what the coercion does. *)
Lemma absolute_value_by_coercion : forall value : pyval,
  match py_float value with
  | Return x => absolute_value value = Return (PFloat (float_abs x))
  | Raise OverflowError => absolute_value value = Return (PStr EmptyString)
  | Raise _ => absolute_value value = Return value
  end.
Proof.
  intros value. unfold absolute_value.
  destruct (py_float value) as [x | e] eqn:Hx.
  - reflexivity.
  - destruct (py_float_raises value e Hx) as [-> | [-> | ->]]; reflexivity.
Qed.

(** X4. [absolute_value] never raises, and for every value its result is
    the absolute value of the float the value coerces to, which is not
    negative; the value itself, unchanged, when the coercion raises
    [ValueError] or [TypeError]; the empty string when it raises
    [OverflowError]. *)
Theorem absolute_value_cases : forall value : pyval,
  match py_float value with
  | Return x =>
      absolute_value value = Return (PFloat (float_abs x))
      /\ float_is_neg (float_abs x) = false
  | Raise OverflowError => absolute_value value = Return (PStr EmptyString)
  | Raise _ => absolute_value value = Return value
  end.
Proof.
  intros value. pose proof (absolute_value_by_coercion value) as H.
  destruct (py_float value) as [x | e].
  - split; [exact H | apply float_abs_not_negative].
  - exact H.
Qed.

(** X5. [absolute_value] is idempotent: on every value, applying it to
    its own result gives that result again. *)
Theorem absolute_value_idempotent : forall value : pyval,
  exists r : pyval,
    absolute_value value = Return r /\ absolute_value r = Return r.
Proof.
  intros value. pose proof (absolute_value_by_coercion value) as H.
  destruct (py_float value) as [x | e] eqn:Hx.
  - exists (PFloat (float_abs x)). split; [exact H |].
    unfold absolute_value. cbn [py_float bind try_except].
    rewrite float_abs_idempotent. reflexivity.
  - destruct (py_float_raises value e Hx) as [-> | [-> | ->]].
    + exists value. split; exact H.
    + exists value. split; exact H.
    + exists (PStr EmptyString). split; [exact H | vm_compute; reflexivity].
Qed.

(** ** [dict_get] *)


(** ** [customer_status] *)

Ltac bind_as H a Ha :=
  apply bind_Return in H;
  let H' := fresh "H" in
  destruct H as [a [Ha H']]; rename H' into H.

(** The three texts [customer_status] can return. *)
Lemma customer_status_body_values :
  forall (clk : clock) (customer : pyval),
  exists v : pyval,
    customer_status clk customer = Return v
    /\ (v = PStr EmptyString \/ v = PStr "new" \/ v = PStr "returning").
Proof.
  intros clk customer. unfold customer_status.
  apply try_except_any; [left; reflexivity |].
  intros v H.
  destruct (negb (truthy customer)).
  - injection H as <-. left. reflexivity.
  - bind_as H today Htoday. bind_as H registered Hreg.
    destruct registered.
    + injection H as <-. right. left. reflexivity.
    + bind_as H visits Hvisits. bind_as H few Hfew. injection H as <-.
      destruct few; [right; left | right; right]; reflexivity.
Qed.

(** X7. [customer_status] never raises and returns one of three texts:
    ['new'], ['returning'], or the empty string. *)
Theorem customer_status_three_values :
  forall (clk : clock) (customer : pyval),
  exists s : string,
    customer_status clk customer = Return (PStr s)
    /\ (s = EmptyString \/ s = "new" \/ s = "returning").
Proof.
  intros clk customer.
  destruct (customer_status_body_values clk customer) as [v [Hv [-> | [-> | ->]]]].
  - exists EmptyString. split; [exact Hv | left; reflexivity].
  - exists "new". split; [exact Hv | right; left; reflexivity].
  - exists "returning". split; [exact Hv | right; right; reflexivity].
Qed.

Lemma getattr_default_lookup :
  forall (class text name : string) (attrs : list (string * pyval)) (v d : pyval),
    lookup name attrs = Some v ->
    getattr_default (PObj class text attrs) name d = v.
Proof.
  intros class text name attrs v d H. cbn [getattr_default]. unfold dict_get.
  rewrite H. reflexivity.
Qed.

Lemma getattr_default_missing :
  forall (class text name : string) (attrs : list (string * pyval)) (d : pyval),
    lookup name attrs = None ->
    getattr_default (PObj class text attrs) name d = d.
Proof.
  intros class text name attrs d H. cbn [getattr_default]. unfold dict_get.
  rewrite H. reflexivity.
Qed.

Lemma getattr_lookup :
  forall (class text name : string) (attrs : list (string * pyval)) (v : pyval),
    lookup name attrs = Some v ->
    getattr (PObj class text attrs) name = Return v.
Proof.
  intros class text name attrs v H. cbn [getattr]. rewrite H. reflexivity.
Qed.

(** X8. A customer whose registration date is a naive datetime gets the
    empty string, whatever the number of visits: [timezone.localdate]
    refuses the naive datetime and the handler absorbs the error. *)
Theorem customer_status_naive_registration :
  forall (clk : clock) (class text : string) (attrs : list (string * pyval))
         (d : datetime),
    lookup "registration_date" attrs = Some (PDatetime d) ->
    dt_tz d = None ->
    customer_status clk (PObj class text attrs) = Return (PStr EmptyString).
Proof.
  intros clk class text attrs d Hreg Hnaive. unfold customer_status.
  cbn [truthy negb].
  destruct (localdate clk PNone) as [today | e]; [| reflexivity].
  cbn [bind].
  rewrite (getattr_default_lookup class text _ attrs _ PNone Hreg).
  rewrite (getattr_lookup class text _ attrs _ Hreg).
  cbn [truthy bind]. unfold localdate at 1. cbn [is_none localtime].
  rewrite Hnaive. reflexivity.
Qed.

Lemma customer_status_naive_registration_witness :
  customer_status sample_clock
    (PObj "Customer" "Asha"
       [("registration_date", PDatetime (sample_time (-5) None));
        ("total_visits", PInt 1)])
  = Return (PStr EmptyString).
Proof.
  apply (customer_status_naive_registration sample_clock "Customer" "Asha" _
           (sample_time (-5) None)); reflexivity.
Defined.

(** X9. A customer registered today is ['new'] however many visits are
    recorded: when the local date of the registration date is the local
    date of the current time, the visits are not looked at. *)
Theorem customer_status_registered_today :
  forall (clk : clock) (class text : string) (attrs : list (string * pyval))
         (d : datetime) (today : Z),
    lookup "registration_date" attrs = Some (PDatetime d) ->
    localdate clk PNone = Return today ->
    localdate clk (PDatetime d) = Return today ->
    customer_status clk (PObj class text attrs) = Return (PStr "new").
Proof.
  intros clk class text attrs d today Hreg Htoday Hd. unfold customer_status.
  cbn [truthy negb]. rewrite Htoday. cbn [bind].
  rewrite (getattr_default_lookup class text _ attrs _ PNone Hreg).
  rewrite (getattr_lookup class text _ attrs _ Hreg).
  cbn [truthy bind]. rewrite Hd. cbn [bind].
  rewrite Z.eqb_refl. reflexivity.
Qed.

Lemma customer_status_registered_today_witness :
  customer_status sample_clock
    (PObj "Customer" "Asha"
       [("registration_date", PDatetime (sample_time (-5) (Some UTC)));
        ("total_visits", PInt 40)])
  = Return (PStr "new").
Proof.
  apply (customer_status_registered_today sample_clock "Customer" "Asha" _
           (sample_time (-5) (Some UTC)) 739265);
    vm_compute; reflexivity.
Defined.

(** X10. Without a registration date the visits decide: a customer with
    no visits recorded, or none at all, is ['new'], and one with [n]
    visits is ['new'] if [n <= 1] and ['returning'] otherwise. *)
Theorem customer_status_by_visits :
  forall (clk : clock) (class text : string) (attrs : list (string * pyval))
         (today : Z),
    lookup "registration_date" attrs = None ->
    localdate clk PNone = Return today ->
    ((lookup "total_visits" attrs = None \/ lookup "total_visits" attrs = Some PNone) ->
       customer_status clk (PObj class text attrs) = Return (PStr "new"))
    /\ (forall n : Z,
          lookup "total_visits" attrs = Some (PInt n) ->
          customer_status clk (PObj class text attrs)
          = Return (PStr (if n <=? 1 then "new" else "returning"))).
Proof.
  intros clk class text attrs today Hreg Htoday. split.
  - intros Hv. unfold customer_status. cbn [truthy negb].
    rewrite Htoday. cbn [bind].
    rewrite (getattr_default_missing class text _ attrs PNone Hreg).
    cbn [truthy bind].
    destruct Hv as [Hv | Hv].
    + rewrite (getattr_default_missing class text _ attrs (PInt 0) Hv). reflexivity.
    + rewrite (getattr_default_lookup class text _ attrs _ (PInt 0) Hv). reflexivity.
  - intros n Hn. unfold customer_status. cbn [truthy negb].
    rewrite Htoday. cbn [bind].
    rewrite (getattr_default_missing class text _ attrs PNone Hreg).
    rewrite (getattr_default_lookup class text _ attrs _ (PInt 0) Hn).
    cbn [truthy bind]. unfold py_or. cbn [truthy].
    destruct (Z.eqb_spec n 0) as [-> | Hn0]; reflexivity.
Qed.

Lemma customer_status_by_visits_witness :
  customer_status sample_clock (PObj "Customer" "Asha" [("total_visits", PInt 7)])
  = Return (PStr "returning").
Proof.
  apply (proj2 (customer_status_by_visits sample_clock "Customer" "Asha"
                  [("total_visits", PInt 7)] 739265 eq_refl eq_refl) 7).
  reflexivity.
Defined.

(** ** [replace] *)

(** X11. [replace] lets one exception through and no other: [TypeError],
    and only for an argument that is not a string; with a string
    argument it never raises. *)
Theorem replace_raises_only_type_error : forall (value arg : pyval) (e : exn),
  replace value arg = Raise e ->
  e = TypeError /\ forall s : string, arg <> PStr s.
Proof.
  intros value arg e H. unfold replace in H.
  destruct (negb (truthy value)); [discriminate H |].
  destruct arg; cbn in H; try discriminate H;
    try (injection H as <-; split; [reflexivity | intros s0; discriminate]).
  - destruct (contains ":" s); cbn in H; [| discriminate H].
    destruct (split_once ":" s) as [| old [| new [| x rest]]]; discriminate H.
  - destruct (existsb _ items); cbn in H; [discriminate H |].
    injection H as <-. split; [reflexivity | intros s0; discriminate].
  - destruct (lookup ":" entries); cbn in H; [discriminate H |].
    injection H as <-. split; [reflexivity | intros s0; discriminate].
Qed.

Lemma replace_raises_only_type_error_witness :
  replace (PStr "abc") (PList []) = Raise TypeError
  /\ TypeError = TypeError
  /\ forall s : string, PList [] <> PStr s.
Proof.
  assert (H : replace (PStr "abc") (PList []) = Raise TypeError) by reflexivity.
  split; [exact H |].
  exact (replace_raises_only_type_error (PStr "abc") (PList []) TypeError H).
Defined.









(** ** [timesince_days], on every datetime *)

Lemma timesince_days_delta : forall (clk : clock) (d : datetime),
  timesince_days clk (PDatetime d)
  = Return (PInt (delta_days (now_utc clk - instant clk d))).
Proof.
  intros clk d. unfold timesince_days, instant, coerced_aware.
  destruct d as [w tz]. cbn [truthy negb is_naive utcoffset dt_tz dt_wall].
  destruct tz as [[| key off] |]; cbn; f_equal; f_equal; f_equal; lia.
Qed.

(** X14. On every datetime, naive or aware, [timesince_days] returns the
    number of whole days from the instant of the datetime to the current
    instant, rounded down: [n] days with [n] days <= difference < [n+1]
    days; so it is 0 during the first 24 hours and never negative for an
    instant in the past. *)
Theorem timesince_days_whole_days : forall (clk : clock) (d : datetime),
  exists n : Z,
    timesince_days clk (PDatetime d) = Return (PInt n)
    /\ n * us_per_day <= now_utc clk - instant clk d < (n + 1) * us_per_day
    /\ (instant clk d <= now_utc clk -> 0 <= n).
Proof.
  intros clk d. exists (delta_days (now_utc clk - instant clk d)).
  split; [apply timesince_days_delta |].
  unfold delta_days.
  assert (Hday : 0 < us_per_day) by reflexivity.
  pose proof (Z.mul_div_le (now_utc clk - instant clk d) us_per_day Hday).
  pose proof (Z.mul_succ_div_gt (now_utc clk - instant clk d) us_per_day Hday).
  split; [lia |].
  intros Hpast. apply Z.div_pos; lia.
Qed.

(** X15. [timesince_days] lets one exception through and no other:
    [AttributeError], and only for a value that is not a datetime. *)
Theorem timesince_days_raises_only_attribute_error :
  forall (clk : clock) (value : pyval) (e : exn),
    timesince_days clk value = Raise e ->
    e = AttributeError /\ forall d : datetime, value <> PDatetime d.
Proof.
  intros clk value e H.
  destruct value;
    try (unfold timesince_days in H;
         match type of H with
         | context [negb (truthy ?v)] => destruct (negb (truthy v))
         end;
         [discriminate H |];
         cbn in H; injection H as <-;
         split; [reflexivity | intros d0; discriminate]).
  rewrite timesince_days_delta in H. discriminate H.
Qed.

Lemma timesince_days_raises_only_attribute_error_witness :
  timesince_days sample_clock (PStr "2025-01-14") = Raise AttributeError
  /\ AttributeError = AttributeError
  /\ forall d : datetime, PStr "2025-01-14" <> PDatetime d.
Proof.
  assert (H : timesince_days sample_clock (PStr "2025-01-14") = Raise AttributeError)
    by reflexivity.
  split; [exact H |].
  exact (timesince_days_raises_only_attribute_error sample_clock _ _ H).
Defined.

(** ** [format_minutes], away from the infinite values *)

Lemma not_positive_max_zero : forall x : float,
  float_ltb (S754_zero false) x = false -> max_zero x = IsInt 0.
Proof.
  intros x H. unfold max_zero. rewrite H. reflexivity.
Qed.

(** X16. [format_minutes] clamps at zero: every value that coerces to a
    float that is not greater than 0 (a negative number, a zero, minus
    infinity, but also a NaN) gives ['0m']. *)
Theorem format_minutes_clamps_at_zero : forall (value : pyval) (x : float),
  is_none value = false ->
  py_float value = Return x ->
  float_ltb (S754_zero false) x = false ->
  format_minutes value = Return (PStr "0m").
Proof.
  intros value x Hv Hx Hneg. unfold format_minutes. rewrite Hv, Hx.
  cbn [bind]. rewrite (not_positive_max_zero x Hneg). reflexivity.
Qed.

Lemma format_minutes_clamps_at_zero_witness :
  format_minutes (PStr "-12.5") = Return (PStr "0m")
  /\ format_minutes (PStr "nan") = Return (PStr "0m").
Proof.
  split.
  - apply (format_minutes_clamps_at_zero (PStr "-12.5")
             (float_of_decimal true 125 (-1))); vm_compute; reflexivity.
  - apply (format_minutes_clamps_at_zero (PStr "nan") S754_nan); reflexivity.
Defined.

(** X17. [format_minutes] splits the whole minutes into hours and
    minutes: every value that coerces to a float other than plus infinity
    gives the layout of [h] hours and [m] minutes with [0 <= h],
    [0 <= m < 60] and [60 h + m] the float truncated to an integer, at
    least 0. *)
Theorem format_minutes_hours_and_minutes : forall (value : pyval) (x : float),
  is_none value = false ->
  py_float value = Return x ->
  x <> S754_infinity false ->
  exists total h m : Z,
    int_of_number (max_zero x) = Return total
    /\ 0 <= h /\ 0 <= m < 60 /\ total = 60 * h + m
    /\ format_minutes value = Return (PStr (minutes_text h m)).
Proof.
  intros value x Hv Hx Hfin.
  destruct (int_of_max_zero_defined x Hfin) as [n [Hn Hpos]].
  exists n, (n / 60), (n mod 60).
  split; [exact Hn |].
  split; [apply Z.div_pos; lia |].
  split; [apply Z.mod_pos_bound; lia |].
  split; [apply Z.div_mod; lia |].
  unfold format_minutes. rewrite Hv, Hx. cbn [bind]. rewrite Hn. reflexivity.
Qed.

Lemma format_minutes_hours_and_minutes_witness :
  exists total h m : Z,
    int_of_number (max_zero (float_of_Z 135)) = Return total
    /\ 0 <= h /\ 0 <= m < 60 /\ total = 60 * h + m
    /\ format_minutes (PInt 135) = Return (PStr (minutes_text h m)).
Proof.
  apply (format_minutes_hours_and_minutes (PInt 135) (float_of_Z 135)).
  - reflexivity.
  - vm_compute. reflexivity.
  - vm_compute. discriminate.
Defined.

Lemma format_minutes_not_numeric_witness :
  format_minutes (PList [PInt 1]) = Return (PStr EmptyString).
Proof.
  apply (format_minutes_not_numeric (PList [PInt 1]) TypeError).
  - reflexivity.
  - discriminate.
Defined.

(** ** [format_qty]: what its handler never sees *)

Lemma decimal_of_string_raises : forall (s : string) (e : exn),
  decimal_of_string s = Raise e -> e = InvalidOperation.
Proof.
  intros s e. unfold decimal_of_string.
  destruct (take_sign _) as [neg body].
  destruct (_ || _); [discriminate |].
  destruct (_ && _); [discriminate |].
  destruct (_ && _); [discriminate |].
  destruct (parse_numeral body) as [[c x] |]; [| congruence].
  destruct (_ && _); [discriminate | congruence].
Qed.

Lemma dec_fix_raises : forall (neg : bool) (c x : Z) (e : exn),
  dec_fix neg c x = Raise e -> e = DecimalOverflow.
Proof.
  intros neg c x e. unfold dec_fix.
  destruct (c =? 0); [discriminate |].
  destruct (dec_Etop <? _); [congruence |].
  destruct (x <? _); [| discriminate].
  destruct (dec_prec <? _); destruct (dec_Etop <? _); first [discriminate | congruence].
Qed.

(** The exceptions of the decimal arithmetic. *)
Lemma dec_mod_one_raises : forall (num : decimal) (e : exn),
  dec_mod num (DFinite false 1 0) = Raise e ->
  e = InvalidOperation \/ e = DecimalOverflow.
Proof.
  intros num e H. destruct num as [neg c x | neg | neg sig p]; cbn [dec_mod] in H.
  - cbv beta iota zeta in H.
    destruct (1 =? 0); [left; congruence |].
    destruct (_ || _).
    + right. eapply dec_fix_raises. exact H.
    + destruct (_ <=? dec_prec); [| left; congruence].
      destruct (_ <? _); [| left; congruence].
      right. eapply dec_fix_raises. exact H.
  - left. congruence.
  - destruct sig; [left; congruence | discriminate H].
Qed.

Lemma dec_quantize_raises : forall (num : decimal) (q : Z) (e : exn),
  dec_quantize num q = Raise e ->
  e = InvalidOperation \/ e = DecimalOverflow.
Proof.
  intros num q e H. destruct num as [neg c x | neg | neg sig p]; cbn [dec_quantize] in H.
  - destruct (negb _); [left; congruence |].
    destruct (c =? 0); [right; eapply dec_fix_raises; exact H |].
    destruct (dec_Emax <? _); [left; congruence |].
    destruct (dec_prec <? _); [left; congruence |].
    cbv zeta in H.
    destruct (dec_Emax <? _); [left; congruence |].
    destruct (dec_prec <? _); [left; congruence |].
    right. eapply dec_fix_raises. exact H.
  - left. congruence.
  - destruct sig; [left; congruence | discriminate H].
Qed.

(** A remainder that is zero comes from a finite number. *)
Lemma dec_mod_one_zero_finite : forall num r : decimal,
  dec_mod num (DFinite false 1 0) = Return r ->
  dec_nonzero r = false ->
  exists neg c x, num = DFinite neg c x.
Proof.
  intros num r H Hz. destruct num as [neg c x | neg | neg sig p].
  - exists neg, c, x. reflexivity.
  - discriminate H.
  - destruct sig; [discriminate H |].
    cbn [dec_mod] in H. injection H as <-.
    unfold dec_fix_nan in Hz. destruct (_ <? _)%nat; discriminate Hz.
Qed.

Lemma quantity_text_raises : forall (num : decimal) (e : exn),
  quantity_text num = Raise e ->
  e = InvalidOperation \/ e = DecimalOverflow.
Proof.
  intros num e H. unfold quantity_text in H.
  destruct (dec_mod num (DFinite false 1 0)) as [r | e1] eqn:Hr.
  - cbn [bind] in H. destruct (dec_nonzero r) eqn:Hnz.
    + destruct (dec_quantize num (-2)) as [q | e2] eqn:Hq; [discriminate H |].
      cbn [bind] in H. injection H as <-.
      eapply dec_quantize_raises. exact Hq.
    + destruct (dec_mod_one_zero_finite num r Hr Hnz) as [neg [c [x ->]]].
      discriminate H.
  - cbn [bind] in H. injection H as <-.
    eapply dec_mod_one_raises. exact Hr.
Qed.

Lemma to_decimal_raises : forall (value : pyval) (e : exn),
  to_decimal value = Raise e -> e = InvalidOperation.
Proof.
  intros value e H. destruct value; cbn [to_decimal] in H;
    eapply decimal_of_string_raises; exact H.
Qed.

(** What [format_qty] does, without its handler. *)
Lemma format_qty_without_handler : forall value : pyval,
  match format_qty value with
  | Raise e => e = InvalidOperation \/ e = DecimalOverflow
  | Return r =>
      r = PStr "0"
      \/ exists (num : decimal) (text : string),
           to_decimal value = Return num
           /\ quantity_text num = Return text
           /\ r = PStr (trimmed_quantity text)
  end.
Proof.
  intros value. unfold format_qty.
  destruct (is_none value || _); [left; reflexivity |].
  destruct (to_decimal value) as [num | e1] eqn:Hnum.
  - cbn [bind]. destruct (quantity_text num) as [text | e2] eqn:Htext.
    + cbn [bind try_except]. right. exists num, text.
      split; [first [exact Hnum | reflexivity] |].
      split; [exact Htext | reflexivity].
    + cbn [bind try_except].
      destruct (quantity_text_raises num e2 Htext) as [-> | ->];
        [left | right]; reflexivity.
  - cbn [bind try_except].
    rewrite (to_decimal_raises value e1 Hnum). left. reflexivity.
Qed.


Lemma rstrip_by_not_ending : forall (p : ascii -> bool) (c : ascii) (s : string),
  p c = true -> ends_with_char c (rstrip_by p s) = false.
Proof.
  intros p c s Hc. induction s as [| x s IH]; cbn [rstrip_by].
  - reflexivity.
  - destruct (rstrip_by p s) as [| y r].
    + destruct (p x) eqn:Hx; cbn [ends_with_char]; [reflexivity |].
      destruct (Ascii.eqb_spec x c) as [-> | _]; [congruence | reflexivity].
    + exact IH.
Qed.

Lemma without_dot_not_ending : forall s : string,
  contains "." s = false -> ends_with_char "." s = false.
Proof.
  induction s as [| x s IH]; intros H.
  - reflexivity.
  - cbn [contains] in H. apply orb_false_iff in H. destruct H as [Hp Hc].
    destruct s as [| y s'].
    + cbn [ends_with_char]. cbn [String.prefix] in Hp.
      destruct (Ascii.eqb_spec x ".") as [-> | _]; [| reflexivity].
      destruct (ascii_dec "." ".") as [_ | Hne]; [discriminate Hp |].
      contradiction Hne. reflexivity.
    + exact (IH Hc).
Qed.

(** X19. A quantity formatted by [format_qty] never ends with a decimal
    point. *)
Theorem format_qty_no_trailing_point : forall (value : pyval) (r : string),
  format_qty value = Return (PStr r) ->
  ends_with_char "." r = false.
Proof.
  intros value r H. pose proof (format_qty_without_handler value) as Hcases.
  rewrite H in Hcases.
  destruct Hcases as [Hzero | [num [text [_ [_ Htext]]]]].
  - injection Hzero as ->. reflexivity.
  - injection Htext as ->. unfold trimmed_quantity.
    destruct (contains "." text) eqn:Hdot.
    + unfold rstrip_chars at 1. apply rstrip_by_not_ending. reflexivity.
    + apply without_dot_not_ending. exact Hdot.
Qed.

Lemma format_qty_no_trailing_point_witness :
  format_qty (PStr "12.00") = Return (PStr "12")
  /\ ends_with_char "." "12" = false.
Proof.
  assert (H : format_qty (PStr "12.00") = Return (PStr "12"))
    by (vm_compute; reflexivity).
  split; [exact H |].
  exact (format_qty_no_trailing_point (PStr "12.00") "12" H).
Defined.

(** ** [order_last_update]: always aware *)

Lemma first_timestamp_aware :
  forall (clk : clock) (order : pyval) (names : list string) (v : pyval),
    first_timestamp clk order names = Return v ->
    exists d : datetime, v = PDatetime d /\ dt_tz d <> None.
Proof.
  intros clk order names v. induction names as [| name rest IH]; intros H.
  - cbn [first_timestamp] in H. injection H as <-.
    exists (tz_now clk). split; [reflexivity | discriminate].
  - cbn [first_timestamp] in H.
    destruct (truthy (getattr_default order name PNone)); [| exact (IH H)].
    destruct (getattr_default order name PNone) as [| | | | | | d | | |];
      try discriminate H.
    cbn [is_naive bind make_aware] in H. unfold utcoffset in H.
    destruct (dt_tz d) as [t |] eqn:Htz; cbn [option_map] in H;
      injection H as <-.
    + exists d. split; [reflexivity | rewrite Htz; discriminate].
    + exists (attach_current_zone clk d). split; [reflexivity | discriminate].
Qed.

(** X20. [order_last_update] never raises, and what it returns is a
    time-zone aware datetime, on every input but the false ones (None, an
    empty container, ...), for which it returns [None]: also when a field
    holds something that is no timestamp, the result is the aware current
    time. *)
Theorem order_last_update_aware : forall (clk : clock) (order : pyval),
  exists v : pyval,
    order_last_update clk order = Return v
    /\ ((truthy order = false /\ v = PNone)
        \/ (truthy order = true
            /\ exists d : datetime, v = PDatetime d /\ dt_tz d <> None)).
Proof.
  intros clk order. unfold order_last_update.
  destruct (truthy order) eqn:Ht; cbn [negb].
  - destruct (first_timestamp clk order timestamp_fields) as [v | e] eqn:Hf.
    + exists v. split; [reflexivity |]. right. split; [reflexivity |].
      eapply first_timestamp_aware. exact Hf.
    + exists (PDatetime (tz_now clk)). split; [reflexivity |].
      right. split; [reflexivity |].
      exists (tz_now clk). split; [reflexivity | discriminate].
  - exists PNone. split; [reflexivity |]. left. split; reflexivity.
Qed.

(** ** [elapsed_minutes] on a naive start *)

(** X21. With time-zone support on, [elapsed_minutes] returns 0 for every
    order whose start is a naive datetime: the start is left naive, its
    subtraction from the aware current time raises [TypeError], and the
    handler absorbs it. *)
Theorem elapsed_minutes_naive_start :
  forall (clk : clock) (order : pyval) (d : datetime),
    py_or (getattr_default order "started_at" PNone)
          (Return (getattr_default order "created_at" PNone))
    = Return (PDatetime d) ->
    dt_tz d = None ->
    elapsed_minutes clk order = Return (PInt 0).
Proof.
  intros clk order d Hstart Hnaive. unfold elapsed_minutes.
  rewrite Hstart. cbn [bind truthy negb is_aware]. unfold utcoffset.
  rewrite Hnaive. cbn [option_map bind py_sub]. unfold datetime_sub.
  rewrite Hnaive. reflexivity.
Qed.

Lemma elapsed_minutes_naive_start_witness :
  elapsed_minutes sample_clock
    (sample_order PNone PNone (PDatetime (sample_time (-90) None)) PNone PNone)
  = Return (PInt 0).
Proof.
  apply (elapsed_minutes_naive_start sample_clock _ (sample_time (-90) None));
    reflexivity.
Defined.

(** An aware start of the same instant is counted. *)
Example elapsed_minutes_aware_start :
  elapsed_minutes sample_clock
    (sample_order PNone PNone (PDatetime (sample_time (-90) (Some UTC))) PNone PNone)
  = Return (PInt 90).
Proof. vm_compute. reflexivity. Qed.

(** ** [extract_services]: entries and composition *)

Lemma extract_services_of_text : forall text : string,
  extract_services (PStr text) = Return (PList (map PStr (services_spec text))).
Proof.
  intros text. unfold extract_services, services_spec. cbn [truthy].
  destruct (String.eqb_spec text EmptyString) as [-> | _]; cbn [negb].
  - reflexivity.
  - rewrite scan_lines_flat_map. reflexivity.
Qed.

Lemma service_list_entries : forall (t s : string),
  In s (service_list t) -> s <> EmptyString /\ strip s = s.
Proof.
  intros t s H. unfold service_list in H.
  apply in_map_iff in H. destruct H as [x [<- Hx]].
  apply filter_In in Hx. destruct Hx as [_ Hx].
  split.
  - apply negb_true_iff in Hx. apply String.eqb_neq. exact Hx.
  - apply strip_idempotent.
Qed.

(** X22. Every service name [extract_services] returns is a non-empty
    string without white space at either end. *)
Theorem extract_services_entries_trimmed :
  forall (text : string) (entries : list pyval),
    extract_services (PStr text) = Return (PList entries) ->
    forall v : pyval, In v entries ->
      exists s : string, v = PStr s /\ s <> EmptyString /\ strip s = s.
Proof.
  intros text entries H v Hv.
  rewrite extract_services_of_text in H. injection H as <-.
  apply in_map_iff in Hv. destruct Hv as [s [<- Hs]].
  exists s. split; [reflexivity |].
  unfold services_spec in Hs. apply in_flat_map in Hs.
  destruct Hs as [line [_ Hs]].
  destruct (matches_label line); [| contradiction Hs].
  eapply service_list_entries. exact Hs.
Qed.

Lemma extract_services_entries_trimmed_witness :
  extract_services (PStr "Add-ons:  Wax ,, Polish ")
  = Return (PList [PStr "Wax"; PStr "Polish"])
  /\ exists s : string, PStr "Polish" = PStr s /\ s <> EmptyString /\ strip s = s.
Proof.
  assert (H : extract_services (PStr "Add-ons:  Wax ,, Polish ")
              = Return (PList [PStr "Wax"; PStr "Polish"]))
    by (vm_compute; reflexivity).
  split; [exact H |].
  apply (extract_services_entries_trimmed _ _ H (PStr "Polish")).
  right. left. reflexivity.
Defined.

Lemma split_from_nonempty : forall (sep : string) (skip : nat) (s : string),
  split_from sep skip s <> [].
Proof.
  intros sep skip s. revert skip.
  induction s as [| c s IH]; intros skip; cbn [split_from].
  - discriminate.
  - destruct skip as [| k]; [| apply IH].
    destruct (String.prefix sep (String c s)); [discriminate |].
    destruct (split_from sep 0 s); discriminate.
Qed.

Lemma prefix_char1 : forall (c x : ascii) (s : string),
  String.prefix (char1 c) (String x s) = if Ascii.eqb x c then true else false.
Proof.
  intros c x s. unfold char1. cbn [String.prefix].
  destruct (ascii_dec c x) as [-> | Hne].
  - rewrite Ascii.eqb_refl, prefix_empty. reflexivity.
  - destruct (Ascii.eqb_spec x c) as [-> | _];
      [contradiction Hne; reflexivity | reflexivity].
Qed.

(** Splitting at a one-character separator distributes over joining two
    texts with that separator. *)
Lemma split_char_append : forall (c : ascii) (a b : string),
  split (char1 c) (a ++ String c b)
  = (split (char1 c) a ++ split (char1 c) b)%list.
Proof.
  intros c a b. unfold split. induction a as [| x a IH].
  - cbn [append split_from]. rewrite prefix_char1, Ascii.eqb_refl.
    reflexivity.
  - change ((String x a ++ String c b)%string) with (String x (a ++ String c b)).
    cbn [split_from]. rewrite !prefix_char1.
    destruct (Ascii.eqb x c).
    + cbn [char1 String.length Nat.pred]. rewrite IH. reflexivity.
    + rewrite IH.
      destruct (split_from (char1 c) 0 a) as [| h t] eqn:Ha.
      * exfalso. exact (split_from_nonempty _ _ _ Ha).
      * reflexivity.
Qed.

(** X23. [extract_services] works line by line: the services of two
    texts joined by a newline are the services of the first followed by
    the services of the second. *)
Theorem extract_services_joined_texts :
  forall (a b : string) (la lb : list pyval),
    extract_services (PStr a) = Return (PList la) ->
    extract_services (PStr b) = Return (PList lb) ->
    extract_services (PStr (a ++ newline ++ b)) = Return (PList (la ++ lb)).
Proof.
  intros a b la lb Ha Hb.
  rewrite extract_services_of_text in *.
  injection Ha as <-. injection Hb as <-.
  unfold services_spec, newline.
  change ((a ++ char1 (chr 10) ++ b)%string) with ((a ++ String (chr 10) b)%string).
  rewrite split_char_append, flat_map_app, map_app. reflexivity.
Qed.

Lemma extract_services_joined_texts_witness :
  extract_services (PStr ("Services: Oil Change" ++ newline ++ "Tire Services: Rotation"))
  = Return (PList ([PStr "Oil Change"] ++ [PStr "Rotation"])).
Proof.
  apply (extract_services_joined_texts "Services: Oil Change" "Tire Services: Rotation");
    vm_compute; reflexivity.
Defined.

(** ** [to_css_class]: the shape of the class, and what it ignores *)



Lemma is_space_lower_char : forall c : ascii, is_space (lower_char c) = is_space c.
Proof.
  intros c. destruct c as [[] [] [] [] [] [] [] []]; vm_compute; reflexivity.
Qed.

Lemma lstrip_lower : forall s : string,
  lstrip_by is_space (lower s) = lower (lstrip_by is_space s).
Proof.
  induction s as [| c s IH]; cbn [lower lstrip_by].
  - reflexivity.
  - rewrite is_space_lower_char. destruct (is_space c); [exact IH | reflexivity].
Qed.

Lemma rstrip_lower : forall s : string,
  rstrip_by is_space (lower s) = lower (rstrip_by is_space s).
Proof.
  induction s as [| c s IH]; cbn [lower rstrip_by].
  - reflexivity.
  - rewrite IH, is_space_lower_char.
    destruct (rstrip_by is_space s) as [| c' r]; cbn [lower].
    + destruct (is_space c); reflexivity.
    + reflexivity.
Qed.

Lemma strip_lower : forall s : string, strip (lower s) = lower (strip s).
Proof.
  intros s. unfold strip. rewrite lstrip_lower, rstrip_lower. reflexivity.
Qed.

Lemma lower_empty : forall s : string,
  String.eqb (lower s) EmptyString = String.eqb s EmptyString.
Proof. intros s. destruct s; reflexivity. Qed.

(** X25. [to_css_class] ignores the case of a label and the white space
    around it: lowering the label first, or trimming it first, changes
    nothing. *)
Theorem to_css_class_ignores_case_and_space : forall s : string,
  to_css_class (PStr (lower s)) = to_css_class (PStr s)
  /\ to_css_class (PStr (strip s)) = to_css_class (PStr s).
Proof.
  intros s. rewrite !to_css_class_css_class_spec. split; f_equal.
  - unfold css_class_spec. rewrite lower_empty, lower_idempotent. reflexivity.
  - unfold css_class_spec.
    destruct (String.eqb_spec s EmptyString) as [-> | Hs]; [reflexivity |].
    rewrite (strip_lower (strip s)), strip_idempotent, <- strip_lower.
    destruct (String.eqb_spec (strip s) EmptyString) as [He | _]; [| reflexivity].
    rewrite strip_lower, He. reflexivity.
Qed.

(** ** [margin_percentage]: break-even, and no exception *)

Lemma fsub_self : forall (m : positive) (e : Z),
  fsub (S754_finite false m e) (S754_finite false m e) = S754_zero false.
Proof.
  intros m e. unfold fsub. cbn [SFsub]. rewrite Z.sub_diag. reflexivity.
Qed.

(** X26. At break-even the margin is [0.0]: when price and cost coerce to
    the same finite float greater than 0, [margin_percentage] returns the
    float zero. *)
Theorem margin_percentage_break_even : forall (price cost_price : pyval) (p : float),
  margin_operands price cost_price = Return (p, IsFloat p) ->
  float_ltb (S754_zero false) p = true ->
  p <> S754_infinity false ->
  margin_percentage price cost_price = Return (PFloat (S754_zero false)).
Proof.
  intros price cost_price p Hops Hpos Hfin. unfold margin_percentage.
  rewrite Hops. cbn [bind].
  destruct p as [s | s | | s m e]; try discriminate Hpos.
  - destruct s; [discriminate Hpos | contradiction Hfin; reflexivity].
  - destruct s; [discriminate Hpos |].
    cbn [le_zero]. replace (float_leb (S754_finite false m e) (S754_zero false))
      with false by reflexivity.
    cbn [orb]. unfold margin_of, float_truediv. cbn [number_to_float float_is_zero bind].
    rewrite fsub_self. reflexivity.
Qed.

Lemma margin_percentage_break_even_witness :
  margin_percentage (PStr "250.00") (PInt 250) = Return (PFloat (S754_zero false)).
Proof.
  apply (margin_percentage_break_even (PStr "250.00") (PInt 250) (float_of_Z 250)).
  - vm_compute. reflexivity.
  - reflexivity.
  - vm_compute. discriminate.
Defined.

(** X27. [margin_percentage] never raises, and what it returns is the
    integer 0, a float, or the empty string. *)
Theorem margin_percentage_never_raises : forall price cost_price : pyval,
  exists v : pyval,
    margin_percentage price cost_price = Return v
    /\ (v = PInt 0 \/ v = PStr EmptyString \/ exists x : float, v = PFloat x).
Proof.
  intros price cost_price. unfold margin_percentage.
  destruct (margin_operands price cost_price) as [[p c] | e] eqn:Hops.
  - cbn [bind].
    destruct (float_leb p (S754_zero false) || le_zero c).
    + exists (PInt 0). split; [reflexivity | left; reflexivity].
    + unfold margin_of, float_truediv.
      destruct (float_is_zero p).
      * exists (PStr EmptyString). split; [reflexivity | right; left; reflexivity].
      * eexists. split; [reflexivity |]. right. right. eexists. reflexivity.
  - apply margin_operands_raises in Hops.
    destruct Hops as [-> | [-> | [-> | ->]]].
    + exists (PInt 0). split; [reflexivity | left; reflexivity].
    + exists (PInt 0). split; [reflexivity | left; reflexivity].
    + exists (PInt 0). split; [reflexivity | left; reflexivity].
    + exists (PStr EmptyString). split; [reflexivity | right; left; reflexivity].
Qed.

(** ** [format_qty] on integers: the numeral goes through unchanged *)

Lemma digit_char_spec : forall d : Z,
  0 <= d < 10 ->
  Z.of_N (code (digit_char d)) - 48 = d /\ is_digit (digit_char d) = true.
Proof.
  intros d H.
  assert (Hd : d = 0 \/ d = 1 \/ d = 2 \/ d = 3 \/ d = 4 \/ d = 5 \/ d = 6
               \/ d = 7 \/ d = 8 \/ d = 9) by lia.
  repeat (destruct Hd as [-> | Hd]; [split; reflexivity |]).
  subst d. split; reflexivity.
Qed.

Lemma digits_of_value : forall (fuel : nat) (n : Z) (acc : string),
  0 <= n < 2 ^ Z.of_nat fuel ->
  value_of_digits 0 (digits_of fuel n acc) = value_of_digits n acc.
Proof.
  induction fuel as [| f IH]; intros n acc Hn.
  - cbn [digits_of]. replace n with 0 by (cbn in Hn; lia). reflexivity.
  - cbn [digits_of].
    assert (Hmod : 0 <= n mod 10 < 10) by (apply Z.mod_pos_bound; lia).
    destruct (digit_char_spec (n mod 10) Hmod) as [Hcode _].
    destruct (n <? 10) eqn:Hsmall.
    + apply Z.ltb_lt in Hsmall. cbn [value_of_digits]. rewrite Hcode.
      rewrite Z.mod_small by lia. reflexivity.
    + apply Z.ltb_ge in Hsmall.
      rewrite IH.
      * cbn [value_of_digits]. rewrite Hcode. f_equal.
        pose proof (Z.div_mod n 10). lia.
      * rewrite Nat2Z.inj_succ, Z.pow_succ_r in Hn by lia.
        split; [apply Z.div_pos; lia |].
        apply Z.div_lt_upper_bound; lia.
Qed.

Lemma str_of_nonneg_value : forall n : Z,
  0 <= n -> value_of_digits 0 (str_of_nonneg n) = n.
Proof.
  intros n Hn. unfold str_of_nonneg. rewrite digits_of_value; [reflexivity |].
  split; [exact Hn |].
  rewrite Nat2Z.inj_succ, Z2Nat.id by apply Z.log2_nonneg.
  destruct (Z.eq_dec n 0) as [-> | Hnz]; [reflexivity |].
  apply Z.log2_spec. lia.
Qed.

Lemma digits_of_all_digits : forall (fuel : nat) (n : Z) (acc : string),
  0 <= n -> all_digits acc = true -> all_digits (digits_of fuel n acc) = true.
Proof.
  induction fuel as [| f IH]; intros n acc Hn Hacc.
  - exact Hacc.
  - cbn [digits_of].
    assert (Hmod : 0 <= n mod 10 < 10) by (apply Z.mod_pos_bound; lia).
    destruct (digit_char_spec (n mod 10) Hmod) as [_ Hdigit].
    assert (Hacc' : all_digits (String (digit_char (n mod 10)) acc) = true)
      by (cbn [all_digits]; rewrite Hdigit, Hacc; reflexivity).
    destruct (n <? 10); [exact Hacc' |].
    apply IH; [apply Z.div_pos; lia | exact Hacc'].
Qed.

Lemma digits_of_length : forall (fuel : nat) (n k : Z) (acc : string),
  0 <= n < 10 ^ k -> 1 <= k ->
  (String.length (digits_of fuel n acc) <= Z.to_nat k + String.length acc)%nat.
Proof.
  induction fuel as [| f IH]; intros n k acc Hn Hk.
  - cbn [digits_of]. lia.
  - cbn [digits_of]. destruct (n <? 10) eqn:Hsmall.
    + cbn [String.length]. lia.
    + apply Z.ltb_ge in Hsmall.
      assert (Hk2 : 2 <= k).
      { destruct (Z.eq_dec k 1) as [-> | Hne]; [cbn in Hn; lia | lia]. }
      assert (Hdiv : 0 <= n / 10 < 10 ^ (k - 1)).
      { split; [apply Z.div_pos; lia |].
        apply Z.div_lt_upper_bound; [lia |].
        rewrite <- Z.pow_succ_r by lia.
        replace (Z.succ (k - 1)) with k by lia. lia. }
      specialize (IH (n / 10) (k - 1) (String (digit_char (n mod 10)) acc) Hdiv).
      cbn [String.length] in IH. lia.
Qed.

Lemma digits_of_not_empty : forall (fuel : nat) (n : Z) (a : ascii) (acc : string),
  exists (c : ascii) (s : string), digits_of fuel n (String a acc) = String c s.
Proof.
  induction fuel as [| f IH]; intros n a acc.
  - exists a, acc. reflexivity.
  - cbn [digits_of]. destruct (n <? 10).
    + eexists. eexists. reflexivity.
    + apply IH.
Qed.

Lemma str_of_nonneg_not_empty : forall n : Z,
  exists (c : ascii) (s : string), str_of_nonneg n = String c s.
Proof.
  intros n. unfold str_of_nonneg. cbn [digits_of].
  destruct (n <? 10).
  - eexists. eexists. reflexivity.
  - apply digits_of_not_empty.
Qed.

Lemma ndigits_bounds : forall n k : Z,
  0 <= n < 10 ^ k -> 1 <= k -> 1 <= ndigits n <= k.
Proof.
  intros n k Hn Hk. unfold ndigits.
  destruct (str_of_nonneg_not_empty n) as [c [s Hs]].
  split.
  - rewrite Hs. cbn [String.length]. lia.
  - pose proof (digits_of_length (S (Z.to_nat (Z.log2 n))) n k EmptyString Hn Hk) as H.
    unfold str_of_nonneg. cbn [String.length] in H. lia.
Qed.

(** What a digit is not. *)
Lemma digit_facts : forall c : ascii,
  is_digit c = true ->
  is_space c = false
  /\ Ascii.eqb c "_" = false
  /\ Ascii.eqb c "." = false
  /\ Ascii.eqb c "i" = false
  /\ c <> "n"%char
  /\ c <> "s"%char
  /\ lower_char c = c
  /\ forall s : string, take_sign (String c s) = (false, String c s).
Proof.
  intros c. destruct c as [[] [] [] [] [] [] [] []];
    intros H; vm_compute in H; try discriminate H;
    repeat split; try reflexivity; discriminate.
Qed.

Lemma all_digits_cons : forall (c : ascii) (s : string),
  all_digits (String c s) = true -> is_digit c = true /\ all_digits s = true.
Proof.
  intros c s H. cbn [all_digits] in H. apply andb_true_iff in H. exact H.
Qed.

Lemma all_digits_rstrip : forall s : string,
  all_digits s = true -> rstrip_by is_space s = s.
Proof.
  induction s as [| c s IH]; intros H.
  - reflexivity.
  - destruct (all_digits_cons c s H) as [Hc Hs].
    cbn [rstrip_by]. rewrite (IH Hs).
    destruct s as [| c' s']; [| reflexivity].
    destruct (digit_facts c Hc) as [-> _]. reflexivity.
Qed.

Lemma all_digits_remove_underscore : forall s : string,
  all_digits s = true -> remove_char "_" s = s.
Proof.
  induction s as [| c s IH]; intros H.
  - reflexivity.
  - destruct (all_digits_cons c s H) as [Hc Hs].
    cbn [remove_char]. destruct (digit_facts c Hc) as [_ [-> _]].
    rewrite (IH Hs). reflexivity.
Qed.

Lemma all_digits_lower : forall s : string, all_digits s = true -> lower s = s.
Proof.
  induction s as [| c s IH]; intros H.
  - reflexivity.
  - destruct (all_digits_cons c s H) as [Hc Hs].
    cbn [lower]. destruct (digit_facts c Hc) as [_ [_ [_ [_ [_ [_ [-> _]]]]]]].
    rewrite (IH Hs). reflexivity.
Qed.

Lemma all_digits_span : forall s : string,
  all_digits s = true -> span_digits s = (s, EmptyString).
Proof.
  induction s as [| c s IH]; intros H.
  - reflexivity.
  - destruct (all_digits_cons c s H) as [Hc Hs].
    cbn [span_digits]. rewrite Hc, (IH Hs). reflexivity.
Qed.

Lemma all_digits_without_dot : forall s : string,
  all_digits s = true -> contains "." s = false.
Proof.
  induction s as [| c s IH]; intros H.
  - reflexivity.
  - destruct (all_digits_cons c s H) as [Hc Hs].
    cbn [contains]. rewrite (IH Hs).
    change "."%string with (char1 "."). rewrite prefix_char1.
    destruct (digit_facts c Hc) as [_ [_ [-> _]]]. reflexivity.
Qed.

Lemma append_empty_r : forall s : string, (s ++ EmptyString)%string = s.
Proof.
  induction s as [| c s IH]; cbn [append]; [reflexivity | rewrite IH; reflexivity].
Qed.

Lemma rstrip_by_cons : forall (p : ascii -> bool) (x c : ascii) (s : string),
  rstrip_by p (String c s) = String c s ->
  rstrip_by p (String x (String c s)) = String x (String c s).
Proof.
  intros p x c s H.
  change (rstrip_by p (String x (String c s)))
    with (match rstrip_by p (String c s) with
          | EmptyString => if p x then EmptyString else String x EmptyString
          | String y r => String x (String y r)
          end).
  rewrite H. reflexivity.
Qed.

(** [Decimal] reads a string of digits as the integer it denotes. *)
Lemma decimal_of_digits : forall (neg : bool) (c : ascii) (s : string),
  all_digits (String c s) = true ->
  adjusted (value_of_digits 0 (String c s)) 0 <= dec_MAX_EMAX ->
  decimal_of_string ((if neg then "-" else EmptyString) ++ String c s)
  = Return (DFinite neg (value_of_digits 0 (String c s)) 0).
Proof.
  intros neg c s Hall Hadj.
  destruct (all_digits_cons c s Hall) as [Hc Hs].
  destruct (digit_facts c Hc) as [Hsp [Hus [Hdot [Hi [Hn [Hsn [Hlow Hsign]]]]]]].
  assert (Hstrip : strip ((if neg then "-" else EmptyString) ++ String c s)
                   = ((if neg then "-" else EmptyString) ++ String c s)%string).
  { unfold strip. destruct neg.
    - change (lstrip_by is_space ("-" ++ String c s))
        with (String "-" (String c s)).
      apply rstrip_by_cons. apply (all_digits_rstrip _ Hall).
    - cbn [append lstrip_by]. rewrite Hsp. apply (all_digits_rstrip _ Hall). }
  unfold decimal_of_string. rewrite Hstrip.
  assert (Hrm : remove_char "_" ((if neg then "-" else EmptyString) ++ String c s)
                = ((if neg then "-" else EmptyString) ++ String c s)%string).
  { destruct neg.
    - change (remove_char "_" ("-" ++ String c s))
        with (String "-" (remove_char "_" (String c s))).
      rewrite (all_digits_remove_underscore _ Hall). reflexivity.
    - apply (all_digits_remove_underscore _ Hall). }
  rewrite Hrm.
  assert (Hts : take_sign ((if neg then "-" else EmptyString) ++ String c s)
                = (neg, String c s)).
  { destruct neg; cbn [append]; [reflexivity | apply Hsign]. }
  rewrite Hts. rewrite (all_digits_lower _ Hall).
  assert (Hinf : String.eqb (String c s) "inf" = false)
    by (cbn [String.eqb]; rewrite Hi; reflexivity).
  assert (Hinfinity : String.eqb (String c s) "infinity" = false)
    by (cbn [String.eqb]; rewrite Hi; reflexivity).
  rewrite Hinf, Hinfinity. cbn [orb].
  assert (Hnan : String.prefix "nan" (String c s) = false).
  { destruct (String.prefix "nan" (String c s)) eqn:E; [| reflexivity].
    apply prefix_cons_inv in E. destruct E as [r [E _]].
    injection E as E _. contradiction Hn. }
  assert (Hsnan : String.prefix "snan" (String c s) = false).
  { destruct (String.prefix "snan" (String c s)) eqn:E; [| reflexivity].
    apply prefix_cons_inv in E. destruct E as [r [E _]].
    injection E as E _. contradiction Hsn. }
  rewrite Hnan, Hsnan. cbn [andb].
  unfold parse_numeral. rewrite (all_digits_span _ Hall).
  rewrite append_empty_r.
  change (parse_exponent EmptyString) with (Some 0). cbv beta iota.
  change (0 - Z.of_nat (String.length EmptyString)) with 0.
  replace (dec_MIN_ETINY <=? 0) with true by reflexivity.
  cbn [andb]. apply Z.leb_le in Hadj. rewrite Hadj. reflexivity.
Qed.

Lemma str_of_nonneg_all_digits : forall n : Z,
  0 <= n -> all_digits (str_of_nonneg n) = true.
Proof.
  intros n Hn. unfold str_of_nonneg. apply digits_of_all_digits; [exact Hn | reflexivity].
Qed.

Lemma str_of_Z_sign : forall n : Z,
  str_of_Z n = ((if Z.ltb n 0 then "-" else EmptyString) ++ str_of_nonneg (Z.abs n))%string.
Proof.
  intros n. unfold str_of_Z. destruct (n <? 0) eqn:Hneg.
  - apply Z.ltb_lt in Hneg. rewrite Z.abs_neq by lia. reflexivity.
  - apply Z.ltb_ge in Hneg. rewrite Z.abs_eq by lia. reflexivity.
Qed.

Lemma str_of_Z_without_dot : forall n : Z, contains "." (str_of_Z n) = false.
Proof.
  intros n. rewrite str_of_Z_sign.
  pose proof (all_digits_without_dot _ (str_of_nonneg_all_digits (Z.abs n) (Z.abs_nonneg n)))
    as Hd.
  destruct (n <? 0); [| exact Hd].
  change (("-" ++ str_of_nonneg (Z.abs n))%string)
    with (String "-" (str_of_nonneg (Z.abs n))).
  cbn [contains]. rewrite Hd.
  change "."%string with (char1 "."). rewrite prefix_char1. reflexivity.
Qed.

Lemma dec_mod_one_of_integer : forall (neg : bool) (c : Z),
  0 < c < 10 ^ 28 ->
  dec_mod (DFinite neg c 0) (DFinite false 1 0) = Return (DFinite neg 0 0).
Proof.
  intros neg c Hc.
  assert (Hnd : 1 <= ndigits c <= 28) by (apply ndigits_bounds; lia).
  assert (Hadj : adjusted c 0 = ndigits c - 1) by (unfold adjusted; lia).
  assert (Hadj1 : adjusted 1 0 = 0) by reflexivity.
  unfold dec_mod. cbv zeta. rewrite Hadj, Hadj1.
  change (1 =? 0) with false. cbv iota.
  replace (c =? 0) with false by (symmetry; apply Z.eqb_neq; lia).
  replace (ndigits c - 1 - 0 <=? -2) with false by (symmetry; apply Z.leb_gt; lia).
  replace (ndigits c - 1 - 0 <=? dec_prec) with true
    by (symmetry; apply Z.leb_le; unfold dec_prec; lia).
  cbn [orb]. change (Z.min 0 0) with 0. change (0 - 0) with 0.
  change (10 ^ 0) with 1. rewrite !Z.mul_1_r, Z.div_1_r, Z.mod_1_r.
  replace (c <? 10 ^ dec_prec) with true
    by (symmetry; apply Z.ltb_lt; unfold dec_prec; lia).
  reflexivity.
Qed.

(** X29. [format_qty] leaves an integer as it is: for every integer of
    at most 28 digits, the result is its decimal numeral, [str(n)]. *)
Theorem format_qty_of_integer : forall n : Z,
  Z.abs n < 10 ^ 28 ->
  format_qty (PInt n) = Return (PStr (str_of_Z n)).
Proof.
  intros n Hn.
  destruct (Z.eq_dec n 0) as [-> | Hnz]; [vm_compute; reflexivity |].
  assert (Habs : 0 < Z.abs n < 10 ^ 28) by lia.
  assert (Hnd : 1 <= ndigits (Z.abs n) <= 28) by (apply ndigits_bounds; lia).
  destruct (str_of_nonneg_not_empty (Z.abs n)) as [a [s Hs]].
  assert (Hall : all_digits (String a s) = true)
    by (rewrite <- Hs; apply str_of_nonneg_all_digits; lia).
  assert (Hval : value_of_digits 0 (String a s) = Z.abs n)
    by (rewrite <- Hs; apply str_of_nonneg_value; lia).
  assert (Hdec : to_decimal (PInt n) = Return (DFinite (n <? 0) (Z.abs n) 0)).
  { cbn [to_decimal py_str py_repr]. rewrite str_of_Z_sign, Hs.
    rewrite (decimal_of_digits (n <? 0) a s Hall).
    - rewrite Hval. reflexivity.
    - rewrite Hval. unfold adjusted, dec_MAX_EMAX. lia. }
  assert (Htext : quantity_text (DFinite (n <? 0) (Z.abs n) 0) = Return (str_of_Z n)).
  { unfold quantity_text. rewrite (dec_mod_one_of_integer _ _ Habs).
    cbn [bind dec_nonzero int_of_decimal]. change (0 =? 0) with true.
    cbn [negb]. change (0 <=? 0) with true. cbv iota.
    change (10 ^ 0) with 1. rewrite Z.mul_1_r. cbn [bind].
    do 2 f_equal. destruct (n <? 0) eqn:Hneg.
    - apply Z.ltb_lt in Hneg. rewrite Z.abs_neq by lia. lia.
    - apply Z.ltb_ge in Hneg. apply Z.abs_eq. lia. }
  unfold format_qty. cbn [is_none orb]. rewrite Hdec. cbn [bind].
  rewrite Htext. cbn [bind try_except]. rewrite str_of_Z_without_dot. reflexivity.
Qed.

Lemma format_qty_of_integer_witness :
  format_qty (PInt (-1200)) = Return (PStr (str_of_Z (-1200))).
Proof.
  apply format_qty_of_integer. reflexivity.
Defined.

(** One digit more, and the remainder by 1 is refused: the filter
    raises. *)
Example format_qty_of_large_integer :
  format_qty (PInt (10 ^ 28)) = Raise InvalidOperation.
Proof. vm_compute. reflexivity. Qed.

(** ** [actual_time_minutes] on a completed order *)

(** X30. For a completed order the clock is not read: when [started_at]
    and [completed_at] are datetimes, [actual_time_minutes] gives the
    same result at every current time (the current time zone is still
    used, to make naive timestamps aware). *)
Theorem actual_time_minutes_completed_ignores_now :
  forall (clk : clock) (later : Z) (class text : string)
         (attrs : list (string * pyval)) (started completed : datetime),
    lookup "started_at" attrs = Some (PDatetime started) ->
    lookup "completed_at" attrs = Some (PDatetime completed) ->
    actual_time_minutes clk (PObj class text attrs)
    = actual_time_minutes
        {| now_utc := later;
           zone_key := zone_key clk;
           zone_offset_local := zone_offset_local clk;
           zone_offset_utc := zone_offset_utc clk |}
        (PObj class text attrs).
Proof.
  intros clk later class text attrs started completed Hs Hc.
  unfold actual_time_minutes. cbn [truthy negb].
  rewrite !(getattr_lookup class text _ attrs _ Hs).
  rewrite !(getattr_lookup class text _ attrs _ Hc).
  cbn [bind py_or truthy negb is_naive make_aware].
  destruct (utcoffset started), (utcoffset completed); reflexivity.
Qed.

Lemma actual_time_minutes_completed_ignores_now_witness :
  actual_time_minutes sample_clock
    (sample_order (PDatetime (sample_time (-30) (Some UTC))) PNone
                  (PDatetime (sample_time (-75) None)) PNone PNone)
  = actual_time_minutes
      {| now_utc := 0;
         zone_key := zone_key sample_clock;
         zone_offset_local := zone_offset_local sample_clock;
         zone_offset_utc := zone_offset_utc sample_clock |}
      (sample_order (PDatetime (sample_time (-30) (Some UTC))) PNone
                    (PDatetime (sample_time (-75) None)) PNone PNone).
Proof.
  apply (actual_time_minutes_completed_ignores_now sample_clock 0 "Order" "ORD-0001" _
           (sample_time (-75) None) (sample_time (-30) (Some UTC)));
    reflexivity.
Defined.

(** The sample order above took 45 minutes. *)
Example actual_time_minutes_sample :
  actual_time_minutes sample_clock
    (sample_order (PDatetime (sample_time (-30) (Some UTC))) PNone
                  (PDatetime (sample_time (-75) None)) PNone PNone)
  = Return (PInt 45).
Proof. vm_compute. reflexivity. Qed.
